(** * Blogicum: the view layer of [blog/views.py]

    A shallow embedding of the class-based views of the blog application
    and of the part of Django they run on (query sets, [get_object_or_404],
    the paginator, the generic views' dispatch), followed by the properties
    of the visibility and ownership rules.

    Tables are lists of rows in storage order.  A query set is a list of
    rows; [filter], [order_by] and [annotate] are list operations.  A view
    method that can raise returns a [result]; a request handler maps a
    store and a request to a new store and a response. *)

From Stdlib Require Import ZArith List String Ascii Bool Lia.
From Stdlib Require Import DecimalString DecimalN.
From Stdlib Require Import Sorting.Sorted Sorting.Permutation.
Import ListNotations.
Local Open Scope string_scope.
Local Open Scope Z_scope.

(** ** Django: exceptions, query sets, paginator, responses *)

Module Django.

(** The exceptions the views can meet. *)
Inductive Exception : Type :=
| Http404
| DoesNotExist
| MultipleObjectsReturned
| AttributeError
| ValueError.

Inductive result (A : Type) : Type :=
| Ok (a : A)
| Raise (e : Exception).
Arguments Ok {A} a.
Arguments Raise {A} e.

Definition bind {A B : Type} (r : result A) (k : A -> result B) : result B :=
  match r with
  | Ok a => k a
  | Raise e => Raise e
  end.

Notation "x <- r ;; k" := (bind r (fun x => k))
  (at level 61, r at next level, right associativity).

(** [QuerySet.order_by('-key')]: rows by decreasing key.  The database
    leaves the order of equal keys open; the model keeps them in storage
    order (a stable insertion sort). *)
Section OrderBy.
Context {A : Type} (key : A -> Z).

Fixpoint insert_desc (a : A) (l : list A) : list A :=
  match l with
  | [] => [a]
  | b :: l' => if key b <? key a then a :: l else b :: insert_desc a l'
  end.

Fixpoint order_by_desc (l : list A) : list A :=
  match l with
  | [] => []
  | a :: l' => insert_desc a (order_by_desc l')
  end.

Fixpoint insert_asc (a : A) (l : list A) : list A :=
  match l with
  | [] => [a]
  | b :: l' => if key a <? key b then a :: l else b :: insert_asc a l'
  end.

Fixpoint order_by_asc (l : list A) : list A :=
  match l with
  | [] => []
  | a :: l' => insert_asc a (order_by_asc l')
  end.
End OrderBy.

(** [QuerySet.get]: the one row that passes the lookup. *)
Definition get {A : Type} (lookup : A -> bool) (qs : list A) : result A :=
  match filter lookup qs with
  | [] => Raise DoesNotExist
  | [a] => Ok a
  | _ :: _ :: _ => Raise MultipleObjectsReturned
  end.

(** [django.shortcuts.get_object_or_404]. *)
Definition get_object_or_404 {A : Type} (qs : list A) (lookup : A -> bool)
  : result A :=
  match get lookup qs with
  | Raise DoesNotExist => Raise Http404
  | r => r
  end.

(** [Paginator(object_list, per_page)] with [orphans = 0] and
    [allow_empty_first_page = True], as [ListView] builds it. *)
Section Paginator.
Context {A : Type}.

Definition num_pages (per_page : nat) (object_list : list A) : nat :=
  let hits := Nat.max 1 (List.length object_list) in
  ((hits + per_page - 1) / per_page)%nat.

(** [Paginator.page(number)]: [object_list[bottom:top]], pages count
    from 1; a number out of range raises [InvalidPage], which
    [MultipleObjectMixin.paginate_queryset] turns into [Http404]. *)
Definition paginate_queryset (per_page : nat) (object_list : list A)
           (number : nat) : result (list A) :=
  if (number <? 1)%nat then Raise Http404
  else if (num_pages per_page object_list <? number)%nat then Raise Http404
  else
    let bottom := ((number - 1) * per_page)%nat in
    Ok (firstn per_page (skipn bottom object_list)).
End Paginator.

(** Named routes of [blog/urls.py], as [reverse] resolves them, and the
    login page [LoginRequiredMixin] sends anonymous users to. *)
Inductive Url : Type :=
| url_index
| url_post_detail (pk : Z)
| url_profile (username : string)
| url_login.

Inductive Method : Type := GET | POST.

(** [request.user]: [AnonymousUser] or a logged-in row of the user table,
    kept by its primary key and user name. *)
Inductive RequestUser : Type :=
| AnonymousUser
| LoggedIn (pk : Z) (username : string).

Definition is_authenticated (u : RequestUser) : bool :=
  match u with
  | AnonymousUser => false
  | LoggedIn _ _ => true
  end.

(** [request.user != obj] for a row [obj] of the user table with primary
    key [pk]: model instances are equal when their primary keys are, and
    [AnonymousUser] equals no row. *)
Definition user_ne (u : RequestUser) (pk : Z) : bool :=
  match u with
  | AnonymousUser => true
  | LoggedIn upk _ => negb (upk =? pk)
  end.

(** A request: the user, the method, the clock [timezone.now()] reads
    while the request is served, the [page] query parameter of the list
    views, and [FORM], the cleaned data of the view's form when the
    submitted data is valid for it ([None] when [form.is_valid()] is
    false). *)
Record Request (F : Type) : Type := {
  user : RequestUser;
  method : Method;
  now : Z;
  page : nat;
  FORM : option F
}.
Arguments user {F} _.
Arguments method {F} _.
Arguments now {F} _.
Arguments page {F} _.
Arguments FORM {F} _.

End Django.

Export Django.

(** ** Models

    Modelled from the spec: [blog/models.py] and [blog/forms.py] are not
    among the sources.  The rows carry the fields of the spec's data model
    that the views read and write; a foreign key is the primary key of the
    row it points to. *)

Module User.
Record t : Type := { pk : Z; username : string }.
End User.

Module Category.
Record t : Type := { pk : Z; slug : string; title : string; is_published : bool }.
End Category.

Module Post.
Record t : Type := {
  pk : Z;
  title : string;
  text : string;
  pub_date : Z;
  is_published : bool;
  author : Z;
  category : Z;
  location : option Z
}.
End Post.

Module Comment.
Record t : Type := {
  pk : Z;
  text : string;
  created_at : Z;
  author : Z;
  post : Z
}.
End Comment.

(** The cleaned data of [PostForm]: every field of a post but its key and
    its author. *)
Module PostForm.
Record t : Type := {
  title : string;
  text : string;
  pub_date : Z;
  is_published : bool;
  category : Z;
  location : option Z
}.

(** [form.save()] on a bound instance. *)
Definition save (f : t) (instance : Post.t) : Post.t :=
  {| Post.pk := Post.pk instance;
     Post.title := title f;
     Post.text := text f;
     Post.pub_date := pub_date f;
     Post.is_published := is_published f;
     Post.author := Post.author instance;
     Post.category := category f;
     Post.location := location f |}.
End PostForm.

(** The cleaned data of [CommentForm]: the text. *)
Module CommentForm.
Record t : Type := { text : string }.

Definition save (f : t) (instance : Comment.t) : Comment.t :=
  {| Comment.pk := Comment.pk instance;
     Comment.text := text f;
     Comment.created_at := Comment.created_at instance;
     Comment.author := Comment.author instance;
     Comment.post := Comment.post instance |}.
End CommentForm.

(** The data store: one list of rows per table. *)
Record Store : Type := {
  users : list User.t;
  categories : list Category.t;
  posts : list Post.t;
  comments : list Comment.t
}.

(** A row of a post query set: the instance and, once the query set has
    been annotated, its [comment_count]. *)
Record Row : Type := { instance : Post.t; comment_count : option nat }.

Module ORM.

(** [Post.objects.all()]. *)
Definition Post_objects (st : Store) : list Row :=
  map (fun p => {| instance := p; comment_count := None |}) (posts st).

(** [post.comments]: the reverse side of [Comment.post]. *)
Definition post_comments (st : Store) (post_pk : Z) : list Comment.t :=
  filter (fun c => Comment.post c =? post_pk) (comments st).

(** [.annotate(comment_count=Count('comments'))]. *)
Definition annotate_comment_count (st : Store) (qs : list Row) : list Row :=
  map (fun r =>
         {| instance := instance r;
            comment_count :=
              Some (List.length (post_comments st (Post.pk (instance r)))) |})
      qs.

(** The lookup [category__is_published=True]: the join of a post with its
    category row. *)
Definition category__is_published (st : Store) (p : Post.t) : bool :=
  existsb (fun c => (Category.pk c =? Post.category p)
                    && Category.is_published c)
          (categories st).

(** The lookup [pk=...] on post rows. *)
Definition pk_is (pk : Z) (r : Row) : bool := Post.pk (instance r) =? pk.

(** The next value of a table's key sequence. *)
Definition next_pk (pks : list Z) : Z := fold_right Z.max 0 pks + 1.

(** [instance.save()] of an existing row: the row with the instance's key
    is replaced. *)
Definition update_post (p : Post.t) (st : Store) : Store :=
  {| users := users st;
     categories := categories st;
     posts := map (fun q => if Post.pk q =? Post.pk p then p else q) (posts st);
     comments := comments st |}.

Definition update_comment (c : Comment.t) (st : Store) : Store :=
  {| users := users st;
     categories := categories st;
     posts := posts st;
     comments :=
       map (fun d => if Comment.pk d =? Comment.pk c then c else d)
           (comments st) |}.

(** [instance.save()] of a new comment: the row is appended under a fresh
    key. *)
Definition insert_comment (text : string) (created_at author post : Z)
           (st : Store) : Store :=
  {| users := users st;
     categories := categories st;
     posts := posts st;
     comments :=
       comments st ++
       [ {| Comment.pk := next_pk (map Comment.pk (comments st));
            Comment.text := text;
            Comment.created_at := created_at;
            Comment.author := author;
            Comment.post := post |} ] |}.

(** [comment.delete()]. *)
Definition delete_comment (pk : Z) (st : Store) : Store :=
  {| users := users st;
     categories := categories st;
     posts := posts st;
     comments := filter (fun c => negb (Comment.pk c =? pk)) (comments st) |}.

(** [post.delete()]; the post's comments go with it. *)
Definition delete_post (pk : Z) (st : Store) : Store :=
  {| users := users st;
     categories := categories st;
     posts := filter (fun p => negb (Post.pk p =? pk)) (posts st);
     comments := filter (fun c => negb (Comment.post c =? pk)) (comments st) |}.

End ORM.

Export ORM.

(** ** Responses and the generic views *)

Module Generic.

(** What a template is rendered with. *)
Inductive Context : Type :=
| ListContext (page_obj : list Row)
| DetailContext (post : Row) (comments : list Comment.t)
| FormContext.

Inductive Response : Type :=
| TemplateResponse (template_name : string) (context : Context)
| HttpResponseRedirect (url : Url)
| HttpResponseNotFound
| HttpResponseServerError.

(** The handler around a view: [Http404] becomes the not-found page, any
    other uncaught exception a server error.  The views below raise
    before they write, so the store of a failed request is the one it
    started with. *)
Definition serve (st : Store) (r : result (Store * Response))
  : Store * Response :=
  match r with
  | Ok out => out
  | Raise Http404 => (st, HttpResponseNotFound)
  | Raise _ => (st, HttpResponseServerError)
  end.

(** [redirect(to)] and [reverse_lazy(name)] both resolve the named route;
    the first wraps it in a response. *)
Definition redirect (to : Url) : Response := HttpResponseRedirect to.
Definition reverse_lazy (name : Url) : Url := name.

(** [LoginRequiredMixin.handle_no_permission] for an anonymous user. *)
Definition handle_no_permission : Response := redirect url_login.

(** [BaseListView.get]: the query set, paginated, rendered. *)
Definition ListView_get {F : Type} (template_name : string) (paginate_by : nat)
           (get_queryset : result (list Row)) (request : Request F)
  : result Response :=
  queryset <- get_queryset ;;
  page_obj <- paginate_queryset paginate_by queryset (page request) ;;
  Ok (TemplateResponse template_name (ListContext page_obj)).

(** [SingleObjectMixin.get_object]: the row of [queryset] with the key of
    the URL; [DoesNotExist] is raised as [Http404]. *)
Definition SingleObjectMixin_get_object (queryset : list Row) (pk : Z)
  : result Row :=
  match get (pk_is pk) queryset with
  | Raise DoesNotExist => Raise Http404
  | r => r
  end.

End Generic.

Export Generic.

(** ** The views of [blog/views.py] *)

Module GetPostsMixin.

(** The lookups [is_published=True, pub_date__lte=now(),
    category__is_published=True]. *)
Definition lookup {F : Type} (st : Store) (request : Request F) (r : Row)
  : bool :=
  Post.is_published (instance r)
  && (Post.pub_date (instance r) <=? now request)
  && category__is_published st (instance r).

Definition get_queryset {F : Type} (st : Store) (request : Request F)
           (super_get_queryset : list Row) : list Row :=
  let queryset := super_get_queryset in
  annotate_comment_count st (filter (lookup st request) queryset).

End GetPostsMixin.

Module CommentChangeMixin.
Definition template_name : string := "blog/comment.html".

(** What [get_object] hands to the generic view: the comment, or the
    response [redirect] built. *)
Inductive Object : Type :=
| Instance (comment : Comment.t)
| Redirected (response : Response).

Definition get_object {F : Type} (st : Store) (request : Request F)
           (pk comment_pk : Z) : result Object :=
  comment <- get_object_or_404 (comments st)
                               (fun c => Comment.pk c =? comment_pk) ;;
  if user_ne (user request) (Comment.author comment)
  then Ok (Redirected (redirect (url_post_detail pk)))
  else Ok (Instance comment).

(** [form_class(instance=self.object)] and [self.object.delete()] need a
    model instance; on a response object they raise [AttributeError]. *)
Definition as_instance (object : Object) : result Comment.t :=
  match object with
  | Instance comment => Ok comment
  | Redirected _ => Raise AttributeError
  end.

End CommentChangeMixin.

Module PostListView.
Definition template_name : string := "blog/index.html".
Definition paginate_by : nat := 10.

(** [MultipleObjectMixin.get_queryset] with [ordering = '-pub_date'],
    under [GetPostsMixin.get_queryset]. *)
Definition get_queryset {F : Type} (st : Store) (request : Request F)
  : list Row :=
  GetPostsMixin.get_queryset st request
    (order_by_desc (fun r => Post.pub_date (instance r)) (Post_objects st)).

Definition get {F : Type} (st : Store) (request : Request F) : Response :=
  snd (serve st
         (response <- ListView_get template_name paginate_by
                                   (Ok (get_queryset st request)) request ;;
          Ok (st, response))).

End PostListView.

Module PostDetailView.
Definition template_name : string := "blog/detail.html".

(** [SingleObjectMixin.get_queryset] under [GetPostsMixin.get_queryset]. *)
Definition get_queryset {F : Type} (st : Store) (request : Request F)
  : list Row :=
  GetPostsMixin.get_queryset st request (Post_objects st).

Definition get_object {F : Type} (st : Store) (request : Request F) (pk : Z)
  : result Row :=
  post <- get_object_or_404 (Post_objects st) (pk_is pk) ;;
  let queryset := get_queryset st request in
  if user_ne (user request) (Post.author (instance post))
  then get_object_or_404 queryset (pk_is pk)
  else Ok post.

(** [get_context_data]: the comments by [created_at]. *)
Definition get_context_data (st : Store) (object : Row) : Context :=
  DetailContext object
    (order_by_asc Comment.created_at
                  (post_comments st (Post.pk (instance object)))).

Definition get {F : Type} (st : Store) (request : Request F) (pk : Z)
  : Response :=
  snd (serve st
         (object <- get_object st request pk ;;
          Ok (st, TemplateResponse template_name
                                   (get_context_data st object)))).

End PostDetailView.

Module CategoryPostsListView.
Definition template_name : string := "blog/category.html".
Definition paginate_by : nat := 10.

Definition get_queryset {F : Type} (st : Store) (request : Request F)
           (category_slug : string) : result (list Row) :=
  category <- get_object_or_404
                (categories st)
                (fun c => String.eqb (Category.slug c) category_slug
                          && Category.is_published c) ;;
  let post_list :=
    filter (fun r => Post.category (instance r) =? Category.pk category)
           (GetPostsMixin.get_queryset st request
              (order_by_desc (fun r => Post.pub_date (instance r))
                             (Post_objects st))) in
  Ok post_list.

Definition get {F : Type} (st : Store) (request : Request F)
           (category_slug : string) : Response :=
  snd (serve st
         (response <- ListView_get template_name paginate_by
                        (get_queryset st request category_slug) request ;;
          Ok (st, response))).

End CategoryPostsListView.

Module ProfileListView.
Definition template_name : string := "blog/profile.html".
Definition paginate_by : nat := 10.

Definition get_queryset {F : Type} (st : Store) (request : Request F)
           (username : string) : result (list Row) :=
  profile <- get_object_or_404
               (users st)
               (fun u => String.eqb (User.username u) username) ;;
  let posts :=
    order_by_desc
      (fun r => Post.pub_date (instance r))
      (filter (fun r => Post.author (instance r) =? User.pk profile)
              (annotate_comment_count st (Post_objects st))) in
  if user_ne (user request) (User.pk profile)
  then Ok (filter (fun r => Post.is_published (instance r)
                            && (Post.pub_date (instance r) <=? now request))
                  posts)
  else Ok posts.

Definition get {F : Type} (st : Store) (request : Request F)
           (username : string) : Response :=
  snd (serve st
         (response <- ListView_get template_name paginate_by
                        (get_queryset st request username) request ;;
          Ok (st, response))).

End ProfileListView.

Module PostChangeMixin.
Definition template_name : string := "blog/create.html".
End PostChangeMixin.

Module PostUpdateView.

(** [Post.objects.filter(author=self.request.user)]. *)
Definition get_queryset {F : Type} (st : Store) (request : Request F)
  : list Row :=
  filter (fun r => negb (user_ne (user request) (Post.author (instance r))))
         (Post_objects st).

Definition get_success_url (object : Post.t) : Url :=
  reverse_lazy (url_post_detail (Post.pk object)).

(** [dispatch], then under it [LoginRequiredMixin.dispatch] and
    [BaseUpdateView.get] / [BaseUpdateView.post]. *)
Definition dispatch (st : Store) (request : Request PostForm.t) (pk : Z)
  : Store * Response :=
  if negb (is_authenticated (user request))
  then (st, redirect (url_post_detail pk))
  else
    serve st
      (object <- SingleObjectMixin_get_object (get_queryset st request) pk ;;
       match method request, FORM request with
       | POST, Some form =>
           let object' := PostForm.save form (instance object) in
           Ok (update_post object' st, redirect (get_success_url object'))
       | _, _ =>
           Ok (st, TemplateResponse PostChangeMixin.template_name FormContext)
       end).

End PostUpdateView.

Module PostDeleteView.
Definition success_url : Url := reverse_lazy url_index.

(** What [get_object] hands to the generic view: the post, or the lazy
    URL of its detail page. *)
Inductive Object : Type :=
| Instance (post : Row)
| Location (url : Url).

Definition get_object {F : Type} (st : Store) (request : Request F) (pk : Z)
  : result Object :=
  post <- SingleObjectMixin_get_object (Post_objects st) pk ;;
  if user_ne (user request) (Post.author (instance post))
  then Ok (Location (reverse_lazy (url_post_detail pk)))
  else Ok (Instance post).

(** [self.object.delete()]: a lazy URL has no [delete]. *)
Definition as_instance (object : Object) : result Row :=
  match object with
  | Instance post => Ok post
  | Location _ => Raise AttributeError
  end.

(** [LoginRequiredMixin.dispatch], then [BaseDetailView.get] or
    [DeletionMixin.delete]: the object, the success URL, then
    [self.object.delete()] and the redirect. *)
Definition dispatch {F : Type} (st : Store) (request : Request F) (pk : Z)
  : Store * Response :=
  if negb (is_authenticated (user request))
  then (st, handle_no_permission)
  else
    serve st
      (object <- get_object st request pk ;;
       match method request with
       | GET =>
           Ok (st, TemplateResponse PostChangeMixin.template_name FormContext)
       | POST =>
           post <- as_instance object ;;
           Ok (delete_post (Post.pk (instance post)) st, redirect success_url)
       end).

End PostDeleteView.

Module CommentCreateView.
Definition template_name : string := "blog/comment_form.html".

Definition get_object {F : Type} (st : Store) (request : Request F) (pk : Z)
  : result Row :=
  get_object_or_404 (Post_objects st)
                    (fun r => pk_is pk r && Post.is_published (instance r)).

(** [get_context_data] calls [self.get_post()], which no class defines. *)
Definition get_context_data : result Context := Raise AttributeError.

Definition get_success_url (pk : Z) : Url :=
  reverse_lazy (url_post_detail pk).

Definition form_valid (st : Store) (request : Request CommentForm.t)
           (pk : Z) (form : CommentForm.t) : result (Store * Response) :=
  post <- get_object st request pk ;;
  match user request with
  | LoggedIn author _ =>
      Ok (insert_comment (CommentForm.text form) (now request) author
                         (Post.pk (instance post)) st,
          redirect (get_success_url pk))
  | AnonymousUser => Raise ValueError
  end.

(** [LoginRequiredMixin.dispatch], then [BaseCreateView.get] /
    [BaseCreateView.post]. *)
Definition dispatch (st : Store) (request : Request CommentForm.t) (pk : Z)
  : Store * Response :=
  if negb (is_authenticated (user request))
  then (st, handle_no_permission)
  else
    serve st
      match method request, FORM request with
      | POST, Some form => form_valid st request pk form
      | _, _ =>
          context <- get_context_data ;;
          Ok (st, TemplateResponse template_name context)
      end.

End CommentCreateView.

Module CommentUpdateView.

Definition form_valid (st : Store) (pk : Z) (form : CommentForm.t)
           (comment : Comment.t) : Store * Response :=
  (update_comment (CommentForm.save form comment) st,
   redirect (url_post_detail pk)).

(** [LoginRequiredMixin.dispatch], then [BaseUpdateView.get] /
    [BaseUpdateView.post]; both build the form on [self.object]. *)
Definition dispatch (st : Store) (request : Request CommentForm.t)
           (pk comment_pk : Z) : Store * Response :=
  if negb (is_authenticated (user request))
  then (st, handle_no_permission)
  else
    serve st
      (object <- CommentChangeMixin.get_object st request pk comment_pk ;;
       comment <- CommentChangeMixin.as_instance object ;;
       match method request, FORM request with
       | POST, Some form => Ok (form_valid st pk form comment)
       | _, _ =>
           Ok (st, TemplateResponse CommentChangeMixin.template_name
                                    FormContext)
       end).

End CommentUpdateView.

Module CommentDeleteView.
Definition template_name : string := "blog/comment.html".

Definition get_success_url (pk : Z) : Url :=
  reverse_lazy (url_post_detail pk).

(** [LoginRequiredMixin.dispatch], then [BaseDetailView.get] or
    [DeletionMixin.delete]. *)
Definition dispatch {F : Type} (st : Store) (request : Request F)
           (pk comment_pk : Z) : Store * Response :=
  if negb (is_authenticated (user request))
  then (st, handle_no_permission)
  else
    serve st
      (object <- CommentChangeMixin.get_object st request pk comment_pk ;;
       match method request with
       | GET => Ok (st, TemplateResponse template_name FormContext)
       | POST =>
           comment <- CommentChangeMixin.as_instance object ;;
           Ok (delete_comment (Comment.pk comment) st,
               redirect (get_success_url pk))
       end).

End CommentDeleteView.

Module PostCreateView.

(** [form.save()] of a new post whose instance was given its author: the
    row is appended under a fresh key. *)
Definition insert_post (form : PostForm.t) (author : Z) (st : Store) : Store :=
  {| users := users st;
     categories := categories st;
     posts :=
       posts st ++
       [ {| Post.pk := next_pk (map Post.pk (posts st));
            Post.title := PostForm.title form;
            Post.text := PostForm.text form;
            Post.pub_date := PostForm.pub_date form;
            Post.is_published := PostForm.is_published form;
            Post.author := author;
            Post.category := PostForm.category form;
            Post.location := PostForm.location form |} ];
     comments := comments st |}.

Definition get_success_url (username : string) : Url :=
  reverse_lazy (url_profile username).

Definition form_valid (st : Store) (request : Request PostForm.t)
           (form : PostForm.t) : result (Store * Response) :=
  match user request with
  | LoggedIn author username =>
      Ok (insert_post form author st, redirect (get_success_url username))
  | AnonymousUser => Raise ValueError
  end.

(** [LoginRequiredMixin.dispatch], then [BaseCreateView.get] /
    [BaseCreateView.post]. *)
Definition dispatch (st : Store) (request : Request PostForm.t)
  : Store * Response :=
  if negb (is_authenticated (user request))
  then (st, handle_no_permission)
  else
    serve st
      match method request, FORM request with
      | POST, Some form => form_valid st request form
      | _, _ =>
          Ok (st, TemplateResponse PostChangeMixin.template_name FormContext)
      end.

End PostCreateView.

Module ProfileEditView.
Definition template_name : string := "blog/user.html".

(** [instance.save()] of an existing user row. *)
Definition update_user (u : User.t) (st : Store) : Store :=
  {| users := map (fun v => if User.pk v =? User.pk u then u else v) (users st);
     categories := categories st;
     posts := posts st;
     comments := comments st |}.

Section Form.
(** [ProfileEditForm] is not among the sources: its cleaned data [F] and
    what [form.save()] writes into the bound user row are parameters. *)
Context {F : Type} (save : F -> User.t -> User.t).

(** [get_object]: [self.request.user]. *)
Definition get_object (pk : Z) (username : string) : User.t :=
  {| User.pk := pk; User.username := username |}.

(** [get_success_url] reads [self.request.user.username]; the form was
    bound to that very object, so after [form.save()] it is the saved
    name. *)
Definition get_success_url (object : User.t) : Url :=
  reverse_lazy (url_profile (User.username object)).

(** [LoginRequiredMixin.dispatch], then [BaseUpdateView.get] /
    [BaseUpdateView.post]. *)
Definition dispatch (st : Store) (request : Request F) : Store * Response :=
  match user request with
  | AnonymousUser => (st, handle_no_permission)
  | LoggedIn pk username =>
      let object := get_object pk username in
      match method request, FORM request with
      | POST, Some form =>
          let object' := save form object in
          (update_user object' st, redirect (get_success_url object'))
      | _, _ => (st, TemplateResponse template_name FormContext)
      end
  end.
End Form.

End ProfileEditView.

(** ** The routes of [blog/urls.py] *)

Module Urls.

(** [path.split('/')]. *)
Fixpoint split (path : string) : list string :=
  match path with
  | EmptyString => [EmptyString]
  | String c rest =>
      if Ascii.eqb c "/"
      then EmptyString :: split rest
      else match split rest with
           | seg :: segs => String c seg :: segs
           | [] => [String c EmptyString]
           end
  end.

(** Every route of the file ends with a slash and no converter matches
    one, so a path is matched segment by segment: the segments of
    ["posts/5/edit/"] are ["posts"], ["5"], ["edit"]; a path without the
    closing slash has none. *)
Definition segments (path : string) : option (list string) :=
  match rev (split path) with
  | EmptyString :: segs => Some (rev segs)
  | _ => None
  end.

Inductive Converter : Type := int | str | slug.

Inductive Part : Type :=
| Literal (text : string)
| Capture (converter : Converter).

Inductive Value : Type :=
| IntValue (z : Z)
| StrValue (s : string).

(** The characters of the slug converter, [[-a-zA-Z0-9_]]. *)
Definition slug_char (c : ascii) : bool :=
  let n := nat_of_ascii c in
  ((48 <=? n) && (n <=? 57) || (65 <=? n) && (n <=? 90)
   || (97 <=? n) && (n <=? 122) || (n =? 45) || (n =? 95))%nat.

(** A converter on a segment: the match of its regular expression
    ([[0-9]+], [[^/]+], [[-a-zA-Z0-9_]+]) and [to_python]. *)
Definition to_python (converter : Converter) (segment : string)
  : option Value :=
  match converter with
  | int =>
      if String.eqb segment EmptyString then None
      else option_map (fun d => IntValue (Z.of_N (N.of_uint d)))
                      (NilEmpty.uint_of_string segment)
  | str =>
      if String.eqb segment EmptyString then None
      else Some (StrValue segment)
  | slug =>
      if String.eqb segment EmptyString then None
      else if forallb slug_char (list_ascii_of_string segment)
           then Some (StrValue segment)
           else None
  end.

(** [IntConverter.to_url]: [str(value)]. *)
Definition to_url (z : Z) : string :=
  if z <? 0
  then String "-" (NilEmpty.string_of_uint (N.to_uint (Z.to_N (- z))))
  else NilEmpty.string_of_uint (N.to_uint (Z.to_N z)).

(** A route against the segments of a path: the captured values, in the
    order of the route. *)
Fixpoint match_route (route : list Part) (segs : list string)
  : option (list Value) :=
  match route, segs with
  | [], [] => Some []
  | Literal text :: route', seg :: segs' =>
      if String.eqb text seg then match_route route' segs' else None
  | Capture converter :: route', seg :: segs' =>
      match to_python converter seg with
      | Some v => option_map (cons v) (match_route route' segs')
      | None => None
      end
  | _, _ => None
  end.

(** The [name=...] of the routes, under [app_name = 'blog']. *)
Inductive ViewName : Type :=
| blog_index
| blog_create_post
| blog_post_detail
| blog_edit_post
| blog_delete_post
| blog_add_comment
| blog_edit_comment
| blog_delete_comment
| blog_category_posts
| blog_edit_profile
| blog_profile.

Definition posts_url : list (list Part * ViewName) :=
  [ ([Literal "create"], blog_create_post);
    ([Capture int], blog_post_detail);
    ([Capture int; Literal "edit"], blog_edit_post);
    ([Capture int; Literal "delete"], blog_delete_post);
    ([Capture int; Literal "comment"], blog_add_comment);
    ([Capture int; Literal "edit_comment"; Capture int], blog_edit_comment);
    ([Capture int; Literal "delete_comment"; Capture int], blog_delete_comment) ].

Definition profile_url : list (list Part * ViewName) :=
  [ ([Literal "edit"], blog_edit_profile);
    ([Capture str], blog_profile) ].

(** [path(prefix, include(patterns))]: the patterns under the prefix, tried
    in their order. *)
Definition include (prefix : list Part) (patterns : list (list Part * ViewName))
  : list (list Part * ViewName) :=
  map (fun p => ((prefix ++ fst p)%list, snd p)) patterns.

(** [urlpatterns], without the media files [static] appends to it. *)
Definition urlpatterns : list (list Part * ViewName) :=
  ([ ([], blog_index) ]
   ++ include [Literal "posts"] posts_url
   ++ [ ([Literal "category"; Capture slug], blog_category_posts) ]
   ++ include [Literal "profile"] profile_url)%list.

(** The resolver: the first route that matches, with its captures. *)
Fixpoint first_match (patterns : list (list Part * ViewName))
         (segs : list string) : option (ViewName * list Value) :=
  match patterns with
  | [] => None
  | (route, name) :: patterns' =>
      match match_route route segs with
      | Some kwargs => Some (name, kwargs)
      | None => first_match patterns' segs
      end
  end.

Definition resolve (path : string) : option (ViewName * list Value) :=
  match segments path with
  | Some segs => first_match urlpatterns segs
  | None => None
  end.

End Urls.

(** ** Store integrity and the statement-level predicates *)

(** No key occurs twice. *)
Fixpoint distinct {K : Type} (eqb : K -> K -> bool) (keys : list K) : bool :=
  match keys with
  | [] => true
  | k :: keys' => negb (existsb (eqb k) keys') && distinct eqb keys'
  end.

(** Primary keys are unique in a table. *)
Definition unique_pk {A : Type} (pk : A -> Z) (table : list A) : bool :=
  distinct Z.eqb (map pk table).

(** A unique text column (the user name, the slug). *)
Definition unique_text {A : Type} (column : A -> string) (table : list A)
  : bool :=
  distinct String.eqb (map column table).

(** The publicly-visible condition of the spec: published, not dated in
    the future, and in a published category. *)
Definition publicly_visible (st : Store) (now : Z) (p : Post.t) : Prop :=
  Post.is_published p = true
  /\ Post.pub_date p <= now
  /\ exists c, In c (categories st)
               /\ Category.pk c = Post.category p
               /\ Category.is_published c = true.

(** By decreasing publication date. *)
Definition by_pub_date_desc (l : list Post.t) : Prop :=
  StronglySorted (fun p q => Post.pub_date q <= Post.pub_date p) l.

(** [viewer] is the row of the user table with key [pk]. *)
Definition is_user (viewer : RequestUser) (pk : Z) : Prop :=
  match viewer with
  | AnonymousUser => False
  | LoggedIn upk _ => upk = pk
  end.

(** The lookups of [GetPostsMixin] on an instance, as one boolean. *)
Definition publicly_visibleb (st : Store) (now : Z) (p : Post.t) : bool :=
  Post.is_published p && (Post.pub_date p <=? now)
  && category__is_published st p.

(** ** A sample store

    Two users, a published and an unpublished category, and posts of each
    kind: visible, unpublished, dated in the future, in the unpublished
    category. *)

Module Sample.

Definition alice : User.t := {| User.pk := 1; User.username := "alice" |}.
Definition bob : User.t := {| User.pk := 2; User.username := "bob" |}.

Definition travel : Category.t :=
  {| Category.pk := 1; Category.slug := "travel";
     Category.title := "Travel"; Category.is_published := true |}.
Definition drafts : Category.t :=
  {| Category.pk := 2; Category.slug := "drafts";
     Category.title := "Drafts"; Category.is_published := false |}.

Definition mk_post (pk pub_date : Z) (is_published : bool)
           (author category : Z) : Post.t :=
  {| Post.pk := pk; Post.title := "title"; Post.text := "text";
     Post.pub_date := pub_date; Post.is_published := is_published;
     Post.author := author; Post.category := category;
     Post.location := None |}.

Definition post5 : Post.t := mk_post 5 100 true 1 1.
Definition post6 : Post.t := mk_post 6 90 false 1 1.
Definition post7 : Post.t := mk_post 7 500 true 1 1.
Definition post8 : Post.t := mk_post 8 80 true 1 2.
Definition post9 : Post.t := mk_post 9 95 true 2 1.

Definition comment1 : Comment.t :=
  {| Comment.pk := 1; Comment.text := "first"; Comment.created_at := 110;
     Comment.author := 2; Comment.post := 5 |}.
Definition comment2 : Comment.t :=
  {| Comment.pk := 2; Comment.text := "second"; Comment.created_at := 120;
     Comment.author := 1; Comment.post := 9 |}.

Definition store : Store :=
  {| users := [alice; bob];
     categories := [travel; drafts];
     posts := [post5; post6; post7; post8; post9];
     comments := [comment1; comment2] |}.


Definition as_alice : RequestUser := LoggedIn 1 "alice".
Definition as_bob : RequestUser := LoggedIn 2 "bob".

(** A request served at time 200. *)
Definition request {F : Type} (user : RequestUser) (method : Method)
           (page : nat) (form : option F) : Request F :=
  {| user := user; method := method; now := 200; page := page; FORM := form |}.

Definition post_form : PostForm.t :=
  {| PostForm.title := "edited"; PostForm.text := "edited text";
     PostForm.pub_date := 150; PostForm.is_published := true;
     PostForm.category := 1; PostForm.location := None |}.

Definition comment_form : CommentForm.t := {| CommentForm.text := "edited" |}.

End Sample.

(** ** Requests as steps of the store

    What one request of [viewer] to a view that writes can make of the
    store; the list and detail views only read. *)
Inductive Handled (viewer : RequestUser) (st : Store) : Store -> Prop :=
| handled_read : Handled viewer st st
| handled_post_create (request : Request PostForm.t) :
    user request = viewer ->
    Handled viewer st (fst (PostCreateView.dispatch st request))
| handled_post_update (request : Request PostForm.t) (pk : Z) :
    user request = viewer ->
    Handled viewer st (fst (PostUpdateView.dispatch st request pk))
| handled_post_delete (request : Request unit) (pk : Z) :
    user request = viewer ->
    Handled viewer st (fst (PostDeleteView.dispatch st request pk))
| handled_comment_create (request : Request CommentForm.t) (pk : Z) :
    user request = viewer ->
    Handled viewer st (fst (CommentCreateView.dispatch st request pk))
| handled_comment_update (request : Request CommentForm.t)
                         (pk comment_pk : Z) :
    user request = viewer ->
    Handled viewer st
            (fst (CommentUpdateView.dispatch st request pk comment_pk))
| handled_comment_delete (request : Request unit) (pk comment_pk : Z) :
    user request = viewer ->
    Handled viewer st
            (fst (CommentDeleteView.dispatch st request pk comment_pk)).

(** The writes of the views, each with what the code has checked before
    it. *)
Inductive Write (viewer : RequestUser) (st : Store) : Store -> Prop :=
| write_nothing : Write viewer st st
| write_post_create form author username :
    viewer = LoggedIn author username ->
    Write viewer st (PostCreateView.insert_post form author st)
| write_post_update p form :
    In p (posts st) -> is_user viewer (Post.author p) ->
    Write viewer st (update_post (PostForm.save form p) st)
| write_post_delete p :
    In p (posts st) -> is_user viewer (Post.author p) ->
    Write viewer st (delete_post (Post.pk p) st)
| write_comment_create p text created_at author username :
    viewer = LoggedIn author username ->
    In p (posts st) -> Post.is_published p = true ->
    Write viewer st (insert_comment text created_at author (Post.pk p) st)
| write_comment_update c form :
    In c (comments st) -> is_user viewer (Comment.author c) ->
    Write viewer st (update_comment (CommentForm.save form c) st)
| write_comment_delete c :
    In c (comments st) -> is_user viewer (Comment.author c) ->
    Write viewer st (delete_comment (Comment.pk c) st).

(** Every comment hangs on a post of the store. *)
Definition comments_attached (st : Store) : bool :=
  forallb (fun c => existsb (fun p => Post.pk p =? Comment.post c) (posts st))
          (comments st).

(** A profile form that edits the user name, for the examples. *)
Definition rename (username : string) (u : User.t) : User.t :=
  {| User.pk := User.pk u; User.username := username |}.

(** ** Facts about query sets *)

Section QuerySetFacts.
Context {A : Type}.

Lemma Permutation_filter (f : A -> bool) (l l' : list A) :
  Permutation l l' -> Permutation (filter f l) (filter f l').
Proof.
  induction 1 as [|x l l' _ IH|x y l|l l' l'' _ IH1 _ IH2]; simpl.
  - constructor.
  - destruct (f x); [constructor|]; exact IH.
  - destruct (f x), (f y); try reflexivity; constructor.
  - etransitivity; eassumption.
Qed.

Lemma StronglySorted_filter (R : A -> A -> Prop) (f : A -> bool) (l : list A) :
  StronglySorted R l -> StronglySorted R (filter f l).
Proof.
  induction 1 as [|a l _ IH Hall]; simpl; [constructor|].
  destruct (f a); [|exact IH].
  constructor; [exact IH|].
  rewrite Forall_forall in *. intros x Hx.
  apply filter_In in Hx. apply Hall, Hx.
Qed.

Lemma StronglySorted_map {B : Type} (R : B -> B -> Prop) (g : A -> B)
      (l : list A) :
  StronglySorted (fun a b => R (g a) (g b)) l -> StronglySorted R (map g l).
Proof.
  induction 1 as [|a l _ IH Hall]; simpl; constructor; [exact IH|].
  rewrite Forall_forall in *. intros y Hy.
  apply in_map_iff in Hy. destruct Hy as (x & <- & Hx). apply Hall, Hx.
Qed.

Variable key : A -> Z.

Lemma insert_desc_perm (a : A) (l : list A) :
  Permutation (insert_desc key a l) (a :: l).
Proof.
  induction l as [|b l IH]; simpl; [reflexivity|].
  destruct (key b <? key a); [reflexivity|].
  rewrite IH. apply perm_swap.
Qed.

Lemma order_by_desc_perm (l : list A) : Permutation (order_by_desc key l) l.
Proof.
  induction l as [|a l IH]; simpl; [reflexivity|].
  rewrite insert_desc_perm. constructor. exact IH.
Qed.

Lemma insert_desc_sorted (a : A) (l : list A) :
  StronglySorted (fun x y => key y <= key x) l ->
  StronglySorted (fun x y => key y <= key x) (insert_desc key a l).
Proof.
  induction 1 as [|b l Hs IH Hall]; simpl.
  - constructor; constructor.
  - destruct (key b <? key a) eqn:E.
    + apply Z.ltb_lt in E.
      constructor; [constructor; assumption|].
      constructor; [lia|].
      rewrite Forall_forall in *. intros x Hx. specialize (Hall x Hx). lia.
    + apply Z.ltb_ge in E.
      constructor; [exact IH|].
      rewrite Forall_forall in *. intros x Hx.
      apply (Permutation_in _ (insert_desc_perm a l)) in Hx.
      destruct Hx as [<-|Hx]; [exact E|apply Hall, Hx].
Qed.

Lemma order_by_desc_sorted (l : list A) :
  StronglySorted (fun x y => key y <= key x) (order_by_desc key l).
Proof.
  induction l as [|a l IH]; simpl; [constructor|].
  apply insert_desc_sorted, IH.
Qed.

End QuerySetFacts.

Section UniqueKeys.
Context {A K : Type} (eqb : K -> K -> bool).
Hypothesis eqb_eq : forall x y, eqb x y = true <-> x = y.
Variable key : A -> K.

Lemma existsb_key_false (l : list A) (k : K) (a : A) :
  existsb (eqb k) (map key l) = false -> In a l -> key a <> k.
Proof.
  intros Hex Hin Heq.
  assert (existsb (eqb k) (map key l) = true) as Ht.
  { apply existsb_exists. exists (key a). split.
    - apply in_map, Hin.
    - apply eqb_eq. symmetry. exact Heq. }
  congruence.
Qed.

Lemma distinct_inj (l : list A) (a b : A) :
  distinct eqb (map key l) = true ->
  In a l -> In b l -> key a = key b -> a = b.
Proof.
  induction l as [|x l IH]; simpl; [contradiction|].
  intros Hd Ha Hb Hk.
  apply andb_true_iff in Hd. destruct Hd as [Hx Hd].
  apply negb_true_iff in Hx.
  destruct Ha as [->|Ha], Hb as [->|Hb].
  - reflexivity.
  - exfalso. apply (existsb_key_false _ _ _ Hx Hb). symmetry. exact Hk.
  - exfalso. apply (existsb_key_false _ _ _ Hx Ha). exact Hk.
  - apply IH; assumption.
Qed.

Lemma filter_key_absent (l : list A) (k : K) (P : A -> bool) :
  (forall x, In x l -> key x = k -> P x = false) ->
  filter (fun x => eqb (key x) k && P x) l = [].
Proof.
  induction l as [|x l IH]; simpl; intros H; [reflexivity|].
  destruct (eqb (key x) k) eqn:E; simpl.
  - apply eqb_eq in E. rewrite (H x (or_introl eq_refl) E).
    apply IH. intros y Hy. apply H. right. exact Hy.
  - apply IH. intros y Hy. apply H. right. exact Hy.
Qed.

Lemma filter_key_unique (l : list A) (a : A) (P : A -> bool) :
  distinct eqb (map key l) = true -> In a l -> P a = true ->
  filter (fun x => eqb (key x) (key a) && P x) l = [a].
Proof.
  induction l as [|x l IH]; simpl; [contradiction|].
  intros Hd Ha HP.
  apply andb_true_iff in Hd. destruct Hd as [Hx Hd].
  apply negb_true_iff in Hx.
  destruct Ha as [->|Ha].
  - assert (eqb (key a) (key a) = true) as -> by (apply eqb_eq; reflexivity).
    rewrite HP. simpl. f_equal.
    apply filter_key_absent. intros y Hy Hk.
    exfalso. exact (existsb_key_false _ _ _ Hx Hy Hk).
  - destruct (eqb (key x) (key a)) eqn:E; simpl.
    + apply eqb_eq in E. exfalso.
      apply (existsb_key_false _ _ _ Hx Ha). symmetry. exact E.
    + apply IH; assumption.
Qed.

(** [get] on a unique key: the row, when it passes the other lookups. *)
Lemma get_found (l : list A) (a : A) (P : A -> bool) :
  distinct eqb (map key l) = true -> In a l -> P a = true ->
  get (fun x => eqb (key x) (key a) && P x) l = Ok a.
Proof.
  intros Hd Ha HP. unfold get. rewrite filter_key_unique; auto.
Qed.

Lemma get_missing (l : list A) (k : K) (P : A -> bool) :
  (forall x, In x l -> key x = k -> P x = false) ->
  get (fun x => eqb (key x) k && P x) l = Raise DoesNotExist.
Proof.
  intros H. unfold get. rewrite filter_key_absent; auto.
Qed.

End UniqueKeys.

(** ** Facts about post rows *)

Lemma insert_desc_map {A B : Type} (key : B -> Z) (g : A -> B) (a : A)
      (l : list A) :
  map g (insert_desc (fun x => key (g x)) a l)
  = insert_desc key (g a) (map g l).
Proof.
  induction l as [|b l IH]; simpl; [reflexivity|].
  destruct (key (g b) <? key (g a)); simpl; [reflexivity|].
  rewrite IH. reflexivity.
Qed.

Lemma order_by_desc_map {A B : Type} (key : B -> Z) (g : A -> B) (l : list A) :
  map g (order_by_desc (fun x => key (g x)) l) = order_by_desc key (map g l).
Proof.
  induction l as [|a l IH]; simpl; [reflexivity|].
  rewrite insert_desc_map, IH. reflexivity.
Qed.

Lemma map_instance_Post_objects (st : Store) :
  map instance (Post_objects st) = posts st.
Proof.
  unfold Post_objects. rewrite map_map. simpl. apply map_id.
Qed.

Lemma map_instance_annotate (st : Store) (qs : list Row) :
  map instance (annotate_comment_count st qs) = map instance qs.
Proof.
  unfold annotate_comment_count. rewrite map_map. reflexivity.
Qed.

Lemma map_instance_filter (f : Post.t -> bool) (qs : list Row) :
  map instance (filter (fun r => f (instance r)) qs)
  = filter f (map instance qs).
Proof.
  symmetry. apply filter_map_swap.
Qed.

Lemma category__is_published_spec (st : Store) (p : Post.t) :
  category__is_published st p = true <->
  exists c, In c (categories st)
            /\ Category.pk c = Post.category p
            /\ Category.is_published c = true.
Proof.
  unfold category__is_published. rewrite existsb_exists.
  split; intros (c & Hin & H); exists c; split; try exact Hin.
  - apply andb_true_iff in H. destruct H as [Hk Hp].
    apply Z.eqb_eq in Hk. auto.
  - destruct H as [Hk Hp]. apply andb_true_iff. split; [|exact Hp].
    apply Z.eqb_eq, Hk.
Qed.

Lemma publicly_visibleb_spec (st : Store) (now : Z) (p : Post.t) :
  publicly_visibleb st now p = true <-> publicly_visible st now p.
Proof.
  unfold publicly_visibleb, publicly_visible.
  rewrite !andb_true_iff, Z.leb_le, category__is_published_spec. tauto.
Qed.

Lemma GetPostsMixin_instances {F : Type} (st : Store) (request : Request F)
      (qs : list Row) :
  map instance (GetPostsMixin.get_queryset st request qs)
  = filter (publicly_visibleb st (now request)) (map instance qs).
Proof.
  unfold GetPostsMixin.get_queryset.
  rewrite map_instance_annotate.
  apply (map_instance_filter (publicly_visibleb st (now request))).
Qed.

Lemma PostListView_instances {F : Type} (st : Store) (request : Request F) :
  map instance (PostListView.get_queryset st request)
  = filter (publicly_visibleb st (now request))
           (order_by_desc Post.pub_date (posts st)).
Proof.
  unfold PostListView.get_queryset.
  rewrite GetPostsMixin_instances.
  rewrite (order_by_desc_map Post.pub_date instance).
  rewrite map_instance_Post_objects. reflexivity.
Qed.


(** The rows of the index query set: the visible posts, each once, by
    decreasing date. *)
Lemma PostListView_listing {F : Type} (st : Store) (request : Request F) :
  (forall p, In p (map instance (PostListView.get_queryset st request)) <->
             In p (posts st) /\ publicly_visible st (now request) p)
  /\ Permutation (map instance (PostListView.get_queryset st request))
                 (filter (publicly_visibleb st (now request)) (posts st))
  /\ by_pub_date_desc (map instance (PostListView.get_queryset st request)).
Proof.
  assert (Permutation (map instance (PostListView.get_queryset st request))
                      (filter (publicly_visibleb st (now request)) (posts st)))
    as Hperm.
  { rewrite PostListView_instances.
    apply Permutation_filter, order_by_desc_perm. }
  split; [|split; [exact Hperm|]].
  - intros p. split.
    + intros Hin. apply (Permutation_in _ Hperm) in Hin.
      apply filter_In in Hin. destruct Hin as [Hin Hv].
      split; [exact Hin|]. apply publicly_visibleb_spec, Hv.
    + intros [Hin Hv].
      apply (Permutation_in _ (Permutation_sym Hperm)).
      apply filter_In. split; [exact Hin|].
      apply publicly_visibleb_spec, Hv.
  - unfold by_pub_date_desc. rewrite PostListView_instances.
    apply StronglySorted_filter.
    apply (order_by_desc_sorted Post.pub_date).
Qed.

(** ** Index listing *)



(** ** Looking a post up by its key *)

Lemma user_ne_false (viewer : RequestUser) (pk : Z) :
  user_ne viewer pk = false <-> is_user viewer pk.
Proof.
  destruct viewer as [|upk name]; simpl.
  - split; [discriminate|contradiction].
  - rewrite negb_false_iff. apply Z.eqb_eq.
Qed.

Lemma user_ne_true (viewer : RequestUser) (pk : Z) :
  user_ne viewer pk = true <-> ~ is_user viewer pk.
Proof.
  rewrite <- user_ne_false. destruct (user_ne viewer pk); split; congruence.
Qed.

Lemma get_ext {A : Type} (f g : A -> bool) (l : list A) :
  (forall x, f x = g x) -> get f l = get g l.
Proof.
  intros H. unfold get. rewrite (filter_ext f g H). reflexivity.
Qed.

Lemma Post_objects_distinct (st : Store) :
  unique_pk Post.pk (posts st) = true ->
  distinct Z.eqb (map (fun r => Post.pk (instance r)) (Post_objects st)) = true.
Proof.
  unfold unique_pk, Post_objects. rewrite map_map. trivial.
Qed.

Lemma in_Post_objects (st : Store) (p : Post.t) :
  In p (posts st) ->
  In {| instance := p; comment_count := None |} (Post_objects st).
Proof.
  intros H. unfold Post_objects.
  apply (in_map (fun p => {| instance := p; comment_count := None |})), H.
Qed.

Lemma Post_objects_instance (st : Store) (r : Row) :
  In r (Post_objects st) -> In (instance r) (posts st).
Proof.
  intros H. rewrite <- map_instance_Post_objects. apply in_map, H.
Qed.

(** A post of a store with unique keys, looked up by its key among the
    rows that pass [P]. *)
Lemma get_post_found (st : Store) (p : Post.t) (P : Row -> bool) :
  unique_pk Post.pk (posts st) = true -> In p (posts st) ->
  P {| instance := p; comment_count := None |} = true ->
  get (fun r => pk_is (Post.pk p) r && P r) (Post_objects st)
  = Ok {| instance := p; comment_count := None |}.
Proof.
  intros Hu Hin HP.
  apply (get_found Z.eqb Z.eqb_eq (fun r => Post.pk (instance r))
                   (Post_objects st)
                   {| instance := p; comment_count := None |} P).
  - apply Post_objects_distinct, Hu.
  - apply in_Post_objects, Hin.
  - exact HP.
Qed.

Lemma get_post_missing (st : Store) (pk : Z) (P : Row -> bool) :
  (forall r, In r (Post_objects st) -> Post.pk (instance r) = pk ->
             P r = false) ->
  get (fun r => pk_is pk r && P r) (Post_objects st) = Raise DoesNotExist.
Proof.
  intros H.
  apply (get_missing Z.eqb Z.eqb_eq (fun r => Post.pk (instance r))
                     (Post_objects st) pk P H).
Qed.

Lemma get_post_by_pk (st : Store) (p : Post.t) :
  unique_pk Post.pk (posts st) = true -> In p (posts st) ->
  get (pk_is (Post.pk p)) (Post_objects st)
  = Ok {| instance := p; comment_count := None |}.
Proof.
  intros Hu Hin.
  rewrite (get_ext _ (fun r => pk_is (Post.pk p) r && true)).
  - apply (get_post_found st p (fun _ => true)); auto.
  - intros r. symmetry. apply andb_true_r.
Qed.

Lemma get_post_no_pk (st : Store) (pk : Z) :
  (forall p, In p (posts st) -> Post.pk p <> pk) ->
  get (pk_is pk) (Post_objects st) = Raise DoesNotExist.
Proof.
  intros H.
  rewrite (get_ext _ (fun r => pk_is pk r && true)).
  - apply get_post_missing. intros r Hr Hk. exfalso.
    apply (H (instance r)); [apply Post_objects_instance, Hr|exact Hk].
  - intros r. symmetry. apply andb_true_r.
Qed.

Lemma filter_andb {A : Type} (f g : A -> bool) (l : list A) :
  filter f (filter g l) = filter (fun x => f x && g x) l.
Proof.
  induction l as [|x l IH]; simpl; [reflexivity|].
  destruct (g x); simpl.
  - rewrite andb_true_r. destruct (f x); rewrite IH; reflexivity.
  - rewrite andb_false_r. exact IH.
Qed.

(** The same lookup in the annotated, filtered query set of
    [GetPostsMixin]. *)
Lemma GetPostsMixin_filter_pk {F : Type} (st : Store) (request : Request F)
      (pk : Z) :
  filter (pk_is pk) (GetPostsMixin.get_queryset st request (Post_objects st))
  = annotate_comment_count
      st
      (filter (fun r => pk_is pk r && GetPostsMixin.lookup st request r)
              (Post_objects st)).
Proof.
  unfold GetPostsMixin.get_queryset, annotate_comment_count.
  rewrite filter_map_swap. f_equal.
  apply (filter_andb (pk_is pk)).
Qed.

Lemma lookup_visible {F : Type} (st : Store) (request : Request F) (r : Row) :
  GetPostsMixin.lookup st request r = true <->
  publicly_visible st (now request) (instance r).
Proof.
  apply (publicly_visibleb_spec st (now request) (instance r)).
Qed.

Lemma get_visible_found {F : Type} (st : Store) (request : Request F)
      (p : Post.t) :
  unique_pk Post.pk (posts st) = true -> In p (posts st) ->
  publicly_visible st (now request) p ->
  get_object_or_404 (GetPostsMixin.get_queryset st request (Post_objects st))
                    (pk_is (Post.pk p))
  = Ok {| instance := p;
          comment_count :=
            Some (List.length (post_comments st (Post.pk p))) |}.
Proof.
  intros Hu Hin Hv.
  unfold get_object_or_404, get. rewrite GetPostsMixin_filter_pk.
  assert (filter (fun r => pk_is (Post.pk p) r
                          && GetPostsMixin.lookup st request r)
                 (Post_objects st)
          = [ {| instance := p; comment_count := None |} ]) as ->.
  { apply (filter_key_unique Z.eqb Z.eqb_eq (fun r => Post.pk (instance r))
             (Post_objects st) {| instance := p; comment_count := None |}
             (GetPostsMixin.lookup st request)).
    - apply Post_objects_distinct, Hu.
    - apply in_Post_objects, Hin.
    - apply lookup_visible. exact Hv. }
  reflexivity.
Qed.

Lemma get_visible_missing {F : Type} (st : Store) (request : Request F)
      (pk : Z) :
  (forall p, In p (posts st) -> Post.pk p = pk ->
             ~ publicly_visible st (now request) p) ->
  get_object_or_404 (GetPostsMixin.get_queryset st request (Post_objects st))
                    (pk_is pk)
  = Raise Http404.
Proof.
  intros H.
  unfold get_object_or_404, get. rewrite GetPostsMixin_filter_pk.
  assert (filter (fun r => pk_is pk r && GetPostsMixin.lookup st request r)
                 (Post_objects st) = []) as ->.
  { apply (filter_key_absent Z.eqb Z.eqb_eq (fun r => Post.pk (instance r))
             (Post_objects st) pk (GetPostsMixin.lookup st request)).
    intros r Hr Hk.
    destruct (GetPostsMixin.lookup st request r) eqn:E; [|reflexivity].
    exfalso. apply (H (instance r)).
    - apply Post_objects_instance, Hr.
    - exact Hk.
    - apply lookup_visible, E. }
  reflexivity.
Qed.

(** ** Post detail *)

(** A post that is not publicly visible, asked for by someone who is not
    its author. *)
Lemma PostDetailView_hidden {F : Type} (st : Store) (request : Request F)
      (p : Post.t) :
  unique_pk Post.pk (posts st) = true -> In p (posts st) ->
  ~ is_user (user request) (Post.author p) ->
  ~ publicly_visible st (now request) p ->
  PostDetailView.get_object st request (Post.pk p) = Raise Http404.
Proof.
  intros Hunique Hin Hne Hv.
  unfold PostDetailView.get_object, get_object_or_404 at 1.
  rewrite (get_post_by_pk st p Hunique Hin). simpl.
  apply user_ne_true in Hne. rewrite Hne.
  apply get_visible_missing. intros q Hq Hk.
  rewrite (distinct_inj Z.eqb Z.eqb_eq Post.pk (posts st) q p); auto.
Qed.

(** C2. Post detail: a key that no post has gives NotFound; the post's
    author gets the post whatever its publication state, date and
    category; every other viewer, anonymous included, gets it when it is
    publicly visible and NotFound otherwise; so an anonymous request for
    an unpublished post gives NotFound. *)
Theorem post_detail {F : Type} (st : Store) (request : Request F) (pk : Z)
        (Hunique : unique_pk Post.pk (posts st) = true) :
  ((forall p, In p (posts st) -> Post.pk p <> pk) ->
   PostDetailView.get_object st request pk = Raise Http404
   /\ PostDetailView.get st request pk = HttpResponseNotFound)
  /\ (forall p, In p (posts st) -> Post.pk p = pk ->
        (is_user (user request) (Post.author p) ->
         PostDetailView.get_object st request pk
         = Ok {| instance := p; comment_count := None |})
        /\ (~ is_user (user request) (Post.author p) ->
            publicly_visible st (now request) p ->
            exists row,
              PostDetailView.get_object st request pk = Ok row
              /\ instance row = p)
        /\ (~ is_user (user request) (Post.author p) ->
            ~ publicly_visible st (now request) p ->
            PostDetailView.get_object st request pk = Raise Http404
            /\ PostDetailView.get st request pk = HttpResponseNotFound)
        /\ (user request = AnonymousUser -> Post.is_published p = false ->
            PostDetailView.get st request pk = HttpResponseNotFound)).
Proof.
  assert (forall p, In p (posts st) -> Post.pk p = pk ->
                    ~ is_user (user request) (Post.author p) ->
                    ~ publicly_visible st (now request) p ->
                    PostDetailView.get_object st request pk = Raise Http404)
    as Hhidden.
  { intros p Hin <-. apply PostDetailView_hidden; assumption. }
  split.
  - intros Hnone.
    assert (PostDetailView.get_object st request pk = Raise Http404) as E.
    { unfold PostDetailView.get_object, get_object_or_404 at 1.
      rewrite (get_post_no_pk st pk Hnone). reflexivity. }
    split; [exact E|]. unfold PostDetailView.get. rewrite E. reflexivity.
  - intros p Hin Hk. repeat split.
    + intros Hauthor. subst pk.
      unfold PostDetailView.get_object, get_object_or_404 at 1.
      rewrite (get_post_by_pk st p Hunique Hin). simpl.
      apply user_ne_false in Hauthor. rewrite Hauthor. reflexivity.
    + intros Hne Hv. subst pk.
      unfold PostDetailView.get_object, get_object_or_404 at 1.
      rewrite (get_post_by_pk st p Hunique Hin). simpl.
      apply user_ne_true in Hne. rewrite Hne.
      unfold PostDetailView.get_queryset.
      rewrite (get_visible_found st request p Hunique Hin Hv).
      eexists. split; reflexivity.
    + apply (Hhidden p); assumption.
    + unfold PostDetailView.get.
      rewrite (Hhidden p); auto.
    + intros Hanon Hunpub.
      unfold PostDetailView.get.
      rewrite (Hhidden p); auto.
      * rewrite Hanon. simpl. tauto.
      * intros (Hp & _). congruence.
Qed.

(** An anonymous request for the unpublished post 6 of the sample store. *)
Lemma post_detail_witness :
  PostDetailView.get Sample.store
                     (@Sample.request unit AnonymousUser GET 1 None) 6
  = HttpResponseNotFound.
Proof.
  refine (proj2 (proj2 (proj2 (proj2
            (post_detail Sample.store
                         (@Sample.request unit AnonymousUser GET 1 None) 6
                         eq_refl)
            Sample.post6 _ eq_refl))) eq_refl eq_refl).
  simpl. tauto.
Defined.

(** ** Category listing *)

Lemma CategoryPostsListView_found {F : Type} (st : Store)
      (request : Request F) (c : Category.t) :
  unique_text Category.slug (categories st) = true ->
  In c (categories st) -> Category.is_published c = true ->
  CategoryPostsListView.get_queryset st request (Category.slug c)
  = Ok (filter (fun r => Post.category (instance r) =? Category.pk c)
               (PostListView.get_queryset st request)).
Proof.
  intros Hu Hin Hp.
  unfold CategoryPostsListView.get_queryset, get_object_or_404.
  rewrite (get_found String.eqb String.eqb_eq Category.slug
                     (categories st) c Category.is_published Hu Hin Hp).
  reflexivity.
Qed.

Lemma CategoryPostsListView_missing {F : Type} (st : Store)
      (request : Request F) (category_slug : string) :
  (forall c, In c (categories st) -> Category.slug c = category_slug ->
             Category.is_published c = false) ->
  CategoryPostsListView.get_queryset st request category_slug = Raise Http404.
Proof.
  intros H.
  unfold CategoryPostsListView.get_queryset, get_object_or_404.
  rewrite (get_missing String.eqb String.eqb_eq Category.slug
                       (categories st) category_slug Category.is_published H).
  reflexivity.
Qed.

(** The first page always exists. *)
Lemma num_pages_positive {A : Type} (l : list A) : (1 <= num_pages 10 l)%nat.
Proof.
  unfold num_pages. cbv zeta.
  pose proof (Nat.div_mod_eq (Nat.max 1 (List.length l) + 10 - 1) 10) as Hdiv.
  pose proof (Nat.mod_upper_bound (Nat.max 1 (List.length l) + 10 - 1) 10)
    as Hmod.
  lia.
Qed.

(** What the category view answers once its query set is there: the page
    asked for, of 10 rows, or NotFound when there is no such page. *)
Lemma CategoryPostsListView_get_page {F : Type} (st : Store)
      (request : Request F) (category_slug : string) (queryset : list Row) :
  CategoryPostsListView.get_queryset st request category_slug = Ok queryset ->
  CategoryPostsListView.get st request category_slug
  = (if ((1 <=? page request) && (page request <=? num_pages 10 queryset))%nat
     then TemplateResponse
            "blog/category.html"
            (ListContext
               (firstn 10 (skipn ((page request - 1) * 10) queryset)))
     else HttpResponseNotFound).
Proof.
  intros E.
  unfold CategoryPostsListView.get, ListView_get. rewrite E. simpl bind.
  unfold paginate_queryset, CategoryPostsListView.paginate_by.
  destruct (page request <? 1)%nat eqn:E1.
  - apply Nat.ltb_lt in E1.
    destruct (1 <=? page request)%nat eqn:E2;
      [apply Nat.leb_le in E2; lia|reflexivity].
  - apply Nat.ltb_ge in E1. apply Nat.leb_le in E1. rewrite E1.
    destruct (num_pages 10 queryset <? page request)%nat eqn:E3.
    + apply Nat.ltb_lt in E3.
      destruct (page request <=? num_pages 10 queryset)%nat eqn:E4;
        [apply Nat.leb_le in E4; lia|reflexivity].
    + apply Nat.ltb_ge in E3. apply Nat.leb_le in E3. rewrite E3.
      reflexivity.
Qed.

(** C9. Category listing: a slug that no category has, or whose category
    is unpublished, gives NotFound; otherwise the listing holds exactly the
    publicly visible posts of that category, by decreasing [pub_date], and
    the answer is the page asked for, cut from that listing at 10 rows a
    page (the first 10 rows for page 1), or NotFound when the listing has
    no such page. *)
Theorem category_listing {F : Type} (st : Store) (request : Request F)
        (category_slug : string)
        (Hunique : unique_text Category.slug (categories st) = true) :
  ((forall c, In c (categories st) -> Category.slug c <> category_slug) ->
   CategoryPostsListView.get_queryset st request category_slug = Raise Http404
   /\ CategoryPostsListView.get st request category_slug
      = HttpResponseNotFound)
  /\ (forall c, In c (categories st) -> Category.slug c = category_slug ->
        (Category.is_published c = false ->
         CategoryPostsListView.get_queryset st request category_slug
         = Raise Http404
         /\ CategoryPostsListView.get st request category_slug
            = HttpResponseNotFound)
        /\ (Category.is_published c = true ->
            exists queryset,
              CategoryPostsListView.get_queryset st request category_slug
              = Ok queryset
              /\ (forall p, In p (map instance queryset) <->
                            In p (posts st)
                            /\ Post.category p = Category.pk c
                            /\ publicly_visible st (now request) p)
              /\ Permutation
                   (map instance queryset)
                   (filter (fun p => Post.category p =? Category.pk c)
                           (filter (publicly_visibleb st (now request))
                                   (posts st)))
              /\ by_pub_date_desc (map instance queryset)
              /\ CategoryPostsListView.get st request category_slug
                 = (if ((1 <=? page request)
                        && (page request <=? num_pages 10 queryset))%nat
                    then TemplateResponse
                           "blog/category.html"
                           (ListContext
                              (firstn 10 (skipn ((page request - 1) * 10)
                                                queryset)))
                    else HttpResponseNotFound)
              /\ (page request = 1%nat ->
                  CategoryPostsListView.get st request category_slug
                  = TemplateResponse "blog/category.html"
                                     (ListContext (firstn 10 queryset)))
              /\ (page request = 0%nat
                  \/ (num_pages 10 queryset < page request)%nat ->
                  CategoryPostsListView.get st request category_slug
                  = HttpResponseNotFound)))
  /\ CategoryPostsListView.paginate_by = 10%nat.
Proof.
  assert (forall H : CategoryPostsListView.get_queryset st request
                       category_slug = Raise Http404,
             CategoryPostsListView.get st request category_slug
             = HttpResponseNotFound) as Hget.
  { intros H. unfold CategoryPostsListView.get, ListView_get.
    rewrite H. reflexivity. }
  split; [|split; [|reflexivity]].
  - intros Hnone.
    assert (CategoryPostsListView.get_queryset st request category_slug
            = Raise Http404) as E.
    { apply CategoryPostsListView_missing. intros c Hin Hs.
      exfalso. exact (Hnone c Hin Hs). }
    split; [exact E|exact (Hget E)].
  - intros c Hin Hslug. split.
    + intros Hunpub.
      assert (CategoryPostsListView.get_queryset st request category_slug
              = Raise Http404) as E.
      { apply CategoryPostsListView_missing. intros c' Hin' Hs'.
        rewrite (distinct_inj String.eqb String.eqb_eq Category.slug
                              (categories st) c' c); auto.
        congruence. }
      split; [exact E|exact (Hget E)].
    + intros Hpub. subst category_slug.
      pose proof (CategoryPostsListView_found st request c Hunique Hin Hpub)
        as E.
      pose proof (CategoryPostsListView_get_page st request _ _ E) as Hpage.
      eexists. split; [exact E|].
      rewrite (map_instance_filter
                 (fun p => Post.category p =? Category.pk c)).
      destruct (PostListView_listing st request) as (Hiff & Hperm & Hsorted).
      split; [|split; [|split; [|split; [exact Hpage|split]]]].
      * intros p. rewrite filter_In, Hiff, Z.eqb_eq. tauto.
      * apply Permutation_filter, Hperm.
      * apply StronglySorted_filter, Hsorted.
      * intros H1. rewrite Hpage, H1.
        pose proof (num_pages_positive
                      (filter (fun r => Post.category (instance r)
                                        =? Category.pk c)
                              (PostListView.get_queryset st request)))
          as Hpos.
        apply Nat.leb_le in Hpos. rewrite Hpos. reflexivity.
      * intros Hout. rewrite Hpage.
        destruct Hout as [->|Hout]; [reflexivity|].
        destruct (page request <=? num_pages 10 _)%nat eqn:E4;
          [apply Nat.leb_le in E4; lia|].
        rewrite andb_false_r. reflexivity.
Qed.

(** The sample store: the unpublished category is NotFound; page 1 of the
    published one shows its two visible posts, newest first; it has no
    page 2. *)
Lemma category_listing_witness :
  CategoryPostsListView.get
    Sample.store (@Sample.request unit AnonymousUser GET 1 None) "drafts"
  = HttpResponseNotFound
  /\ (exists queryset,
        CategoryPostsListView.get_queryset
          Sample.store (@Sample.request unit AnonymousUser GET 1 None)
          "travel"
        = Ok queryset
        /\ CategoryPostsListView.get
             Sample.store (@Sample.request unit AnonymousUser GET 1 None)
             "travel"
           = TemplateResponse "blog/category.html"
                              (ListContext (firstn 10 queryset)))
  /\ CategoryPostsListView.get
       Sample.store (@Sample.request unit AnonymousUser GET 2 None) "travel"
     = HttpResponseNotFound.
Proof.
  assert (In Sample.drafts (categories Sample.store)) as Hdrafts
    by (simpl; tauto).
  assert (In Sample.travel (categories Sample.store)) as Htravel
    by (simpl; tauto).
  split; [|split].
  - exact (proj2 (proj1 (proj1 (proj2
             (category_listing Sample.store
                (@Sample.request unit AnonymousUser GET 1 None)
                "drafts" eq_refl))
             Sample.drafts Hdrafts eq_refl) eq_refl)).
  - destruct (proj2 (proj1 (proj2
                (category_listing Sample.store
                   (@Sample.request unit AnonymousUser GET 1 None)
                   "travel" eq_refl))
                Sample.travel Htravel eq_refl) eq_refl)
      as (queryset & E & _ & _ & _ & _ & Hfirst & _).
    exists queryset. split; [exact E|exact (Hfirst eq_refl)].
  - destruct (proj2 (proj1 (proj2
                (category_listing Sample.store
                   (@Sample.request unit AnonymousUser GET 2 None)
                   "travel" eq_refl))
                Sample.travel Htravel eq_refl) eq_refl)
      as (queryset & E & _ & _ & _ & _ & _ & Hout).
    apply Hout. right.
    vm_compute in E. injection E as <-. vm_compute. lia.
Defined.

(** ** Profile listing *)

(** What the profile view lists: the owner sees all of the profile's posts,
    every other viewer those that are published and not dated in the
    future; the category is not looked at. *)
Lemma ProfileListView_instances {F : Type} (st : Store) (request : Request F)
      (profile : User.t) :
  unique_text User.username (users st) = true -> In profile (users st) ->
  exists queryset,
    ProfileListView.get_queryset st request (User.username profile)
    = Ok queryset
    /\ map instance queryset
       = let own :=
           order_by_desc
             Post.pub_date
             (filter (fun p => Post.author p =? User.pk profile) (posts st)) in
         if user_ne (user request) (User.pk profile)
         then filter (fun p => Post.is_published p
                               && (Post.pub_date p <=? now request)) own
         else own.
Proof.
  intros Hu Hin.
  assert (get_object_or_404
            (users st)
            (fun u => String.eqb (User.username u) (User.username profile))
          = Ok profile) as E.
  { unfold get_object_or_404.
    rewrite (get_ext _ (fun u => String.eqb (User.username u)
                                            (User.username profile) && true)).
    - rewrite (get_found String.eqb String.eqb_eq User.username (users st)
                         profile (fun _ => true) Hu Hin eq_refl).
      reflexivity.
    - intros u. symmetry. apply andb_true_r. }
  unfold ProfileListView.get_queryset. rewrite E. simpl bind.
  assert (map instance
              (order_by_desc
                 (fun r => Post.pub_date (instance r))
                 (filter (fun r => Post.author (instance r) =? User.pk profile)
                         (annotate_comment_count st (Post_objects st))))
          = order_by_desc
              Post.pub_date
              (filter (fun p => Post.author p =? User.pk profile) (posts st)))
    as Hown.
  { rewrite (order_by_desc_map Post.pub_date instance).
    rewrite (map_instance_filter
               (fun p => Post.author p =? User.pk profile)).
    rewrite map_instance_annotate, map_instance_Post_objects. reflexivity. }
  cbv zeta.
  destruct (user_ne (user request) (User.pk profile)).
  - eexists. split; [reflexivity|].
    rewrite (map_instance_filter
               (fun p => Post.is_published p
                         && (Post.pub_date p <=? now request))).
    rewrite Hown. reflexivity.
  - eexists. split; [reflexivity|]. exact Hown.
Qed.

(** C1, on the sample store: bob opens alice's profile.  The listing holds
    post 8, which is alice's, published and dated in the past, though its
    category is unpublished, so the post is not publicly visible. *)
Theorem profile_listing_skips_category :
  exists queryset,
    ProfileListView.get_queryset
      Sample.store (@Sample.request unit Sample.as_bob GET 1 None) "alice"
    = Ok queryset
    /\ map instance queryset = [Sample.post5; Sample.post8]
    /\ Post.author Sample.post8 = User.pk Sample.alice
    /\ ~ is_user Sample.as_bob (User.pk Sample.alice)
    /\ ~ publicly_visible Sample.store 200 Sample.post8.
Proof.
  eexists. split; [reflexivity|].
  split; [reflexivity|]. split; [reflexivity|].
  split; [simpl; lia|].
  intros (_ & _ & c & Hin & Hk & Hp).
  simpl in Hin. destruct Hin as [<-|[<-|[]]]; simpl in Hk, Hp.
  - discriminate.
  - discriminate.
Qed.

(** ** Post update *)

Lemma SingleObjectMixin_all_found (st : Store) (p : Post.t) :
  unique_pk Post.pk (posts st) = true -> In p (posts st) ->
  SingleObjectMixin_get_object (Post_objects st) (Post.pk p)
  = Ok {| instance := p; comment_count := None |}.
Proof.
  intros Hu Hin. unfold SingleObjectMixin_get_object.
  rewrite (get_post_by_pk st p Hu Hin). reflexivity.
Qed.

Lemma SingleObjectMixin_all_missing (st : Store) (pk : Z) :
  (forall p, In p (posts st) -> Post.pk p <> pk) ->
  SingleObjectMixin_get_object (Post_objects st) pk = Raise Http404.
Proof.
  intros H. unfold SingleObjectMixin_get_object.
  rewrite (get_post_no_pk st pk H). reflexivity.
Qed.

(** The editable set: the viewer's own posts. *)
Lemma PostUpdateView_own {F : Type} (st : Store) (request : Request F)
      (p : Post.t) :
  unique_pk Post.pk (posts st) = true -> In p (posts st) ->
  is_user (user request) (Post.author p) ->
  SingleObjectMixin_get_object (PostUpdateView.get_queryset st request)
                               (Post.pk p)
  = Ok {| instance := p; comment_count := None |}.
Proof.
  intros Hu Hin Hown.
  unfold SingleObjectMixin_get_object, PostUpdateView.get_queryset, get.
  rewrite filter_andb.
  assert (filter (fun r => pk_is (Post.pk p) r
                          && negb (user_ne (user request)
                                           (Post.author (instance r))))
                 (Post_objects st)
          = [ {| instance := p; comment_count := None |} ]) as ->.
  { apply (filter_key_unique Z.eqb Z.eqb_eq (fun r => Post.pk (instance r))
             (Post_objects st) {| instance := p; comment_count := None |}
             (fun r => negb (user_ne (user request)
                                     (Post.author (instance r))))).
    - apply Post_objects_distinct, Hu.
    - apply in_Post_objects, Hin.
    - simpl. apply negb_true_iff, user_ne_false, Hown. }
  reflexivity.
Qed.

Lemma PostUpdateView_not_own {F : Type} (st : Store) (request : Request F)
      (pk : Z) :
  unique_pk Post.pk (posts st) = true ->
  (forall p, In p (posts st) -> Post.pk p = pk ->
             ~ is_user (user request) (Post.author p)) ->
  SingleObjectMixin_get_object (PostUpdateView.get_queryset st request) pk
  = Raise Http404.
Proof.
  intros Hu Hother.
  unfold SingleObjectMixin_get_object, PostUpdateView.get_queryset, get.
  rewrite filter_andb.
  assert (filter (fun r => pk_is pk r
                          && negb (user_ne (user request)
                                           (Post.author (instance r))))
                 (Post_objects st) = []) as ->.
  { apply (filter_key_absent Z.eqb Z.eqb_eq (fun r => Post.pk (instance r))
             (Post_objects st) pk
             (fun r => negb (user_ne (user request)
                                     (Post.author (instance r))))).
    intros r Hr Hk. apply negb_false_iff, user_ne_true.
    apply Hother; [apply Post_objects_instance, Hr|exact Hk]. }
  reflexivity.
Qed.

(** An authenticated viewer asks to edit a post that is not theirs: the
    store stays as it is and the answer is the not-found page. *)
Lemma PostUpdateView_other (st : Store) (request : Request PostForm.t)
      (p : Post.t) :
  unique_pk Post.pk (posts st) = true -> In p (posts st) ->
  is_authenticated (user request) = true ->
  ~ is_user (user request) (Post.author p) ->
  PostUpdateView.dispatch st request (Post.pk p) = (st, HttpResponseNotFound).
Proof.
  intros Hu Hin Hauth Hother.
  unfold PostUpdateView.dispatch. rewrite Hauth. simpl negb. cbv iota.
  rewrite (PostUpdateView_not_own st request (Post.pk p) Hu).
  - reflexivity.
  - intros q Hq Hk.
    rewrite (distinct_inj Z.eqb Z.eqb_eq Post.pk (posts st) q p); auto.
Qed.

(** C4. Post update: an anonymous viewer is redirected to the detail page of
    the post id of the URL; the editable set is the viewer's own posts, so
    an authenticated viewer asking for another author's post gets NotFound;
    a valid edit by the author is saved and answered with a redirect to the
    post's detail page. *)
Theorem post_update (st : Store) (request : Request PostForm.t) (pk : Z)
        (Hunique : unique_pk Post.pk (posts st) = true) :
  (user request = AnonymousUser ->
   PostUpdateView.dispatch st request pk
   = (st, HttpResponseRedirect (url_post_detail pk)))
  /\ (forall r, In r (PostUpdateView.get_queryset st request) <->
                In r (Post_objects st)
                /\ is_user (user request) (Post.author (instance r)))
  /\ (forall p, In p (posts st) -> Post.pk p = pk ->
        is_authenticated (user request) = true ->
        (~ is_user (user request) (Post.author p) ->
         PostUpdateView.dispatch st request pk = (st, HttpResponseNotFound))
        /\ (is_user (user request) (Post.author p) ->
            method request = POST ->
            forall form, FORM request = Some form ->
            PostUpdateView.dispatch st request pk
            = (update_post (PostForm.save form p) st,
               HttpResponseRedirect (url_post_detail pk)))).
Proof.
  split; [|split].
  - intros Hanon. unfold PostUpdateView.dispatch. rewrite Hanon. reflexivity.
  - intros r. unfold PostUpdateView.get_queryset.
    rewrite filter_In, negb_true_iff, user_ne_false. tauto.
  - intros p Hin Hk Hauth. subst pk. split.
    + apply PostUpdateView_other; assumption.
    + intros Hown Hpost form Hform.
      unfold PostUpdateView.dispatch. rewrite Hauth. simpl negb. cbv iota.
      rewrite (PostUpdateView_own st request p Hunique Hin Hown).
      simpl bind. rewrite Hpost, Hform. reflexivity.
Qed.

(** Alice edits her post 5 of the sample store. *)
Lemma post_update_witness :
  PostUpdateView.dispatch
    Sample.store
    (Sample.request Sample.as_alice POST 1 (Some Sample.post_form)) 5
  = (update_post (PostForm.save Sample.post_form Sample.post5) Sample.store,
     HttpResponseRedirect (url_post_detail 5)).
Proof.
  refine (proj2 (proj2 (proj2
            (post_update Sample.store
               (Sample.request Sample.as_alice POST 1 (Some Sample.post_form))
               5 eq_refl))
            Sample.post5 _ eq_refl eq_refl)
            eq_refl eq_refl Sample.post_form eq_refl).
  simpl. tauto.
Defined.

(** C5, as the spec states it, fails: bob asks to edit alice's post 5 and
    is not redirected to its detail page. *)
Lemma edit_by_other_not_redirected :
  ~ (forall (st : Store) (request : Request PostForm.t) (p : Post.t),
        unique_pk Post.pk (posts st) = true -> In p (posts st) ->
        is_authenticated (user request) = true ->
        ~ is_user (user request) (Post.author p) ->
        PostUpdateView.dispatch st request (Post.pk p)
        = (st, HttpResponseRedirect (url_post_detail (Post.pk p)))).
Proof.
  intros H.
  specialize (H Sample.store
                (Sample.request Sample.as_bob POST 1 (Some Sample.post_form))
                Sample.post5 eq_refl).
  assert (In Sample.post5 (posts Sample.store)) as Hin by (simpl; tauto).
  specialize (H Hin eq_refl).
  assert (~ is_user Sample.as_bob (Post.author Sample.post5)) as Hne
    by (simpl; lia).
  specialize (H Hne). vm_compute in H. discriminate H.
Qed.

(** C5, amended: for every authenticated viewer and every post of another
    author, a request of the viewer to edit the post changes nothing in the
    store and is answered with NotFound. *)
Theorem edit_by_other_not_found (st : Store) (request : Request PostForm.t)
        (p : Post.t)
        (Hunique : unique_pk Post.pk (posts st) = true)
        (Hin : In p (posts st))
        (Hauth : is_authenticated (user request) = true)
        (Hother : ~ is_user (user request) (Post.author p)) :
  fst (PostUpdateView.dispatch st request (Post.pk p)) = st
  /\ In p (posts (fst (PostUpdateView.dispatch st request (Post.pk p))))
  /\ snd (PostUpdateView.dispatch st request (Post.pk p))
     = HttpResponseNotFound.
Proof.
  rewrite (PostUpdateView_other st request p Hunique Hin Hauth Hother).
  simpl. auto.
Qed.

(** Bob asks to edit alice's post 5 of the sample store. *)
Lemma edit_by_other_not_found_witness :
  snd (PostUpdateView.dispatch
         Sample.store
         (Sample.request Sample.as_bob POST 1 (Some Sample.post_form)) 5)
  = HttpResponseNotFound.
Proof.
  refine (proj2 (proj2
            (edit_by_other_not_found
               Sample.store
               (Sample.request Sample.as_bob POST 1 (Some Sample.post_form))
               Sample.post5 eq_refl _ eq_refl _))).
  - simpl. tauto.
  - simpl. lia.
Defined.

(** ** Post delete *)

Lemma PostDeleteView_get_object_other {F : Type} (st : Store)
      (request : Request F) (p : Post.t) :
  unique_pk Post.pk (posts st) = true -> In p (posts st) ->
  ~ is_user (user request) (Post.author p) ->
  PostDeleteView.get_object st request (Post.pk p)
  = Ok (PostDeleteView.Location (url_post_detail (Post.pk p))).
Proof.
  intros Hu Hin Hother. unfold PostDeleteView.get_object.
  rewrite (SingleObjectMixin_all_found st p Hu Hin). simpl.
  apply user_ne_true in Hother. rewrite Hother. reflexivity.
Qed.

(** C6. Post delete: the post is loaded by its key alone, whoever asks; for
    a viewer who is not the author [get_object] returns the location of the
    post's detail page in place of the post, and the request leaves the
    store, and the post in it, as they were. *)
Theorem post_delete {F : Type} (st : Store) (request : Request F) (pk : Z)
        (Hunique : unique_pk Post.pk (posts st) = true) :
  ((forall p, In p (posts st) -> Post.pk p <> pk) ->
   PostDeleteView.get_object st request pk = Raise Http404)
  /\ (forall p, In p (posts st) -> Post.pk p = pk ->
        SingleObjectMixin_get_object (Post_objects st) pk
        = Ok {| instance := p; comment_count := None |}
        /\ (is_user (user request) (Post.author p) ->
            PostDeleteView.get_object st request pk
            = Ok (PostDeleteView.Instance
                    {| instance := p; comment_count := None |}))
        /\ (~ is_user (user request) (Post.author p) ->
            PostDeleteView.get_object st request pk
            = Ok (PostDeleteView.Location (url_post_detail pk))
            /\ fst (PostDeleteView.dispatch st request pk) = st
            /\ In p (posts (fst (PostDeleteView.dispatch st request pk))))).
Proof.
  split.
  - intros Hnone. unfold PostDeleteView.get_object.
    rewrite (SingleObjectMixin_all_missing st pk Hnone). reflexivity.
  - intros p Hin Hk. subst pk.
    split; [apply SingleObjectMixin_all_found; assumption|]. split.
    + intros Hown. unfold PostDeleteView.get_object.
      rewrite (SingleObjectMixin_all_found st p Hunique Hin). simpl.
      apply user_ne_false in Hown. rewrite Hown. reflexivity.
    + intros Hother.
      pose proof (PostDeleteView_get_object_other st request p
                    Hunique Hin Hother) as E.
      split; [exact E|].
      assert (fst (PostDeleteView.dispatch st request (Post.pk p)) = st)
        as Hst.
      { unfold PostDeleteView.dispatch.
        destruct (negb (is_authenticated (user request))); [reflexivity|].
        rewrite E. simpl. destruct (method request); reflexivity. }
      split; [exact Hst|]. rewrite Hst. exact Hin.
Qed.

(** Bob asks to delete alice's post 5 of the sample store. *)
Lemma post_delete_witness :
  PostDeleteView.get_object
    Sample.store (@Sample.request unit Sample.as_bob POST 1 None) 5
  = Ok (PostDeleteView.Location (url_post_detail 5))
  /\ fst (PostDeleteView.dispatch
            Sample.store (@Sample.request unit Sample.as_bob POST 1 None) 5)
     = Sample.store.
Proof.
  assert (In Sample.post5 (posts Sample.store)) as Hin by (simpl; tauto).
  assert (~ is_user Sample.as_bob (Post.author Sample.post5)) as Hne
    by (simpl; lia).
  destruct (proj2 (proj2 (proj2
              (post_delete Sample.store
                 (@Sample.request unit Sample.as_bob POST 1 None) 5 eq_refl)
              Sample.post5 Hin eq_refl)) Hne) as (E & Hst & _).
  split; [exact E|exact Hst].
Defined.

(** ** Comment update and delete *)

Lemma get_comment_by_pk (st : Store) (c : Comment.t) :
  unique_pk Comment.pk (comments st) = true -> In c (comments st) ->
  get_object_or_404 (comments st) (fun d => Comment.pk d =? Comment.pk c)
  = Ok c.
Proof.
  intros Hu Hin. unfold get_object_or_404.
  rewrite (get_ext _ (fun d => (Comment.pk d =? Comment.pk c) && true)).
  - rewrite (get_found Z.eqb Z.eqb_eq Comment.pk (comments st) c
                       (fun _ => true) Hu Hin eq_refl).
    reflexivity.
  - intros d. symmetry. apply andb_true_r.
Qed.

(** The comment is found by its own key; the post key of the URL only
    names the page to go to.  A viewer who is not the author is handed a
    redirect response as the object. *)
Lemma CommentChangeMixin_get_object_spec {F : Type} (st : Store)
      (request : Request F) (pk : Z) (c : Comment.t) :
  unique_pk Comment.pk (comments st) = true -> In c (comments st) ->
  CommentChangeMixin.get_object st request pk (Comment.pk c)
  = if user_ne (user request) (Comment.author c)
    then Ok (CommentChangeMixin.Redirected
               (HttpResponseRedirect (url_post_detail pk)))
    else Ok (CommentChangeMixin.Instance c).
Proof.
  intros Hu Hin. unfold CommentChangeMixin.get_object.
  rewrite (get_comment_by_pk st c Hu Hin). simpl.
  destruct (user_ne (user request) (Comment.author c)); reflexivity.
Qed.

(** The author's edit and delete go through, whatever post key the URL
    carries, and are answered with a redirect to that post's page. *)
Lemma comment_change_by_author (st : Store) (request : Request CommentForm.t)
      (pk : Z) (c : Comment.t) (form : CommentForm.t) :
  unique_pk Comment.pk (comments st) = true -> In c (comments st) ->
  is_user (user request) (Comment.author c) ->
  method request = POST -> FORM request = Some form ->
  CommentUpdateView.dispatch st request pk (Comment.pk c)
  = (update_comment (CommentForm.save form c) st,
     HttpResponseRedirect (url_post_detail pk))
  /\ CommentDeleteView.dispatch st request pk (Comment.pk c)
     = (delete_comment (Comment.pk c) st,
        HttpResponseRedirect (url_post_detail pk)).
Proof.
  intros Hu Hin Hown Hpost Hform.
  assert (is_authenticated (user request) = true) as Hauth
    by (destruct (user request); [contradiction|reflexivity]).
  apply user_ne_false in Hown.
  unfold CommentUpdateView.dispatch, CommentDeleteView.dispatch.
  rewrite Hauth, (CommentChangeMixin_get_object_spec st request pk c Hu Hin).
  rewrite Hown, Hpost, Hform. split; reflexivity.
Qed.

(** A viewer who is not the author changes nothing, and is answered with
    a server error or the rendered page, never with a redirect. *)
Lemma comment_change_by_other (st : Store) (request : Request CommentForm.t)
      (pk : Z) (c : Comment.t) :
  unique_pk Comment.pk (comments st) = true -> In c (comments st) ->
  is_authenticated (user request) = true ->
  ~ is_user (user request) (Comment.author c) ->
  CommentUpdateView.dispatch st request pk (Comment.pk c)
  = (st, HttpResponseServerError)
  /\ CommentDeleteView.dispatch st request pk (Comment.pk c)
     = (st, match method request with
            | GET => TemplateResponse "blog/comment.html" FormContext
            | POST => HttpResponseServerError
            end).
Proof.
  intros Hu Hin Hauth Hother.
  apply user_ne_true in Hother.
  unfold CommentUpdateView.dispatch, CommentDeleteView.dispatch.
  rewrite Hauth, (CommentChangeMixin_get_object_spec st request pk c Hu Hin).
  rewrite Hother. split; [reflexivity|].
  destruct (method request); reflexivity.
Qed.

(** C7, on the sample store: bob asks to delete, then to edit, alice's
    comment 2 under the URL of post 5 (the comment belongs to post 9).
    [get_object] returns the redirect response as the object; the generic
    view then calls [delete] on it, or builds the form on it, and fails:
    the store is unchanged, and the answer is a server error (the rendered
    confirmation page on GET), not a redirect to the detail page. *)
Theorem comment_change_by_other_not_redirected :
  CommentChangeMixin.get_object
    Sample.store (@Sample.request unit Sample.as_bob POST 1 None) 5 2
  = Ok (CommentChangeMixin.Redirected
          (HttpResponseRedirect (url_post_detail 5)))
  /\ CommentDeleteView.dispatch
       Sample.store (@Sample.request unit Sample.as_bob POST 1 None) 5 2
     = (Sample.store, HttpResponseServerError)
  /\ CommentDeleteView.dispatch
       Sample.store (@Sample.request unit Sample.as_bob GET 1 None) 5 2
     = (Sample.store, TemplateResponse "blog/comment.html" FormContext)
  /\ CommentUpdateView.dispatch
       Sample.store
       (Sample.request Sample.as_bob POST 1 (Some Sample.comment_form)) 5 2
     = (Sample.store, HttpResponseServerError)
  /\ CommentUpdateView.dispatch
       Sample.store
       (Sample.request Sample.as_bob GET 1 None) 5 2
     = (Sample.store, HttpResponseServerError).
Proof.
  repeat split.
Qed.

(** ** Comment create *)

Lemma next_pk_fresh (pks : list Z) : ~ In (next_pk pks) pks.
Proof.
  assert (forall x, In x pks -> x <= fold_right Z.max 0 pks) as Hmax.
  { induction pks as [|y l IH]; simpl; [contradiction|].
    intros x [->|Hx]; [lia|]. specialize (IH x Hx). lia. }
  intros Hin. apply Hmax in Hin. unfold next_pk in Hin. lia.
Qed.

(** A valid comment form posted by a logged-in viewer on a published
    post: the comment is stored and the viewer is sent to the post's
    page. *)
Lemma CommentCreateView_published (st : Store) (request : Request CommentForm.t)
      (p : Post.t) (author : Z) (name : string) (form : CommentForm.t) :
  unique_pk Post.pk (posts st) = true -> In p (posts st) ->
  Post.is_published p = true ->
  user request = LoggedIn author name ->
  method request = POST -> FORM request = Some form ->
  CommentCreateView.dispatch st request (Post.pk p)
  = (insert_comment (CommentForm.text form) (now request) author
                    (Post.pk p) st,
     HttpResponseRedirect (url_post_detail (Post.pk p))).
Proof.
  intros Hu Hin Hpub Huser Hpost Hform.
  unfold CommentCreateView.dispatch. rewrite Huser, Hpost, Hform. simpl negb.
  cbv iota. unfold CommentCreateView.form_valid, CommentCreateView.get_object.
  unfold get_object_or_404.
  rewrite (get_post_found st p (fun r => Post.is_published (instance r))
                          Hu Hin Hpub).
  simpl bind. rewrite Huser. reflexivity.
Qed.

Lemma CommentCreateView_unpublished (st : Store)
      (request : Request CommentForm.t) (pk : Z) (form : CommentForm.t) :
  (forall p, In p (posts st) -> Post.pk p = pk ->
             Post.is_published p = false) ->
  is_authenticated (user request) = true ->
  method request = POST -> FORM request = Some form ->
  CommentCreateView.dispatch st request pk = (st, HttpResponseNotFound).
Proof.
  intros Hnone Hauth Hpost Hform.
  unfold CommentCreateView.dispatch. rewrite Hauth, Hpost, Hform. simpl negb.
  cbv iota. unfold CommentCreateView.form_valid, CommentCreateView.get_object.
  unfold get_object_or_404.
  rewrite (get_post_missing st pk (fun r => Post.is_published (instance r))).
  - reflexivity.
  - intros r Hr Hk. apply Hnone; [apply Post_objects_instance, Hr|exact Hk].
Qed.

(** C8. Comment create, for a valid form posted by a logged-in viewer: when
    the post of the URL exists and is published, whatever its category, a
    new comment is stored with that post and that viewer as author, and the
    answer is a redirect to the post's detail page; when no post has the
    key or the post is unpublished the answer is NotFound and nothing is
    stored; so the request succeeds only on an existing published post. *)
Theorem comment_create (st : Store) (request : Request CommentForm.t)
        (pk author : Z) (name : string) (form : CommentForm.t)
        (Hunique : unique_pk Post.pk (posts st) = true)
        (Huser : user request = LoggedIn author name)
        (Hpost : method request = POST)
        (Hform : FORM request = Some form) :
  (forall p, In p (posts st) -> Post.pk p = pk ->
     Post.is_published p = true ->
     exists comment,
       CommentCreateView.dispatch st request pk
       = ({| users := users st; categories := categories st;
             posts := posts st; comments := comments st ++ [comment] |},
          HttpResponseRedirect (url_post_detail pk))
       /\ Comment.post comment = pk
       /\ Comment.author comment = author
       /\ Comment.text comment = CommentForm.text form
       /\ ~ In (Comment.pk comment) (map Comment.pk (comments st)))
  /\ ((forall p, In p (posts st) -> Post.pk p = pk ->
                 Post.is_published p = false) ->
      CommentCreateView.dispatch st request pk = (st, HttpResponseNotFound))
  /\ (forall st' url,
        CommentCreateView.dispatch st request pk
        = (st', HttpResponseRedirect url) ->
        exists p, In p (posts st) /\ Post.pk p = pk
                  /\ Post.is_published p = true).
Proof.
  assert (is_authenticated (user request) = true) as Hauth
    by (rewrite Huser; reflexivity).
  split; [|split].
  - intros p Hin Hk Hpub. subst pk.
    rewrite (CommentCreateView_published st request p author name form);
      auto.
    eexists. split; [reflexivity|]. simpl.
    repeat split; try reflexivity. apply next_pk_fresh.
  - intros Hnone.
    apply (CommentCreateView_unpublished st request pk form); assumption.
  - intros st' url Hok.
    destruct (existsb (fun p => (Post.pk p =? pk) && Post.is_published p)
                      (posts st)) eqn:E.
    + apply existsb_exists in E. destruct E as (p & Hin & Hp).
      apply andb_true_iff in Hp. destruct Hp as [Hk Hpub].
      apply Z.eqb_eq in Hk. exists p. auto.
    + exfalso.
      rewrite (CommentCreateView_unpublished st request pk form) in Hok;
        auto; [discriminate|].
      intros p Hin Hk.
      destruct (Post.is_published p) eqn:Hpub; [|reflexivity].
      assert (existsb (fun p => (Post.pk p =? pk) && Post.is_published p)
                      (posts st) = true) as Ht.
      { apply existsb_exists. exists p. split; [exact Hin|].
        rewrite Hpub, andb_true_r. apply Z.eqb_eq, Hk. }
      congruence.
Qed.

(** Bob comments on the published post 5 of the sample store. *)
Lemma comment_create_witness :
  exists comment,
    CommentCreateView.dispatch
      Sample.store
      (Sample.request Sample.as_bob POST 1 (Some Sample.comment_form)) 5
    = ({| users := users Sample.store; categories := categories Sample.store;
          posts := posts Sample.store;
          comments := comments Sample.store ++ [comment] |},
       HttpResponseRedirect (url_post_detail 5))
    /\ Comment.post comment = 5
    /\ Comment.author comment = 2
    /\ Comment.text comment = CommentForm.text Sample.comment_form
    /\ ~ In (Comment.pk comment) (map Comment.pk (comments Sample.store)).
Proof.
  refine (proj1 (comment_create
                   Sample.store
                   (Sample.request Sample.as_bob POST 1
                                   (Some Sample.comment_form))
                   5 2 "bob" Sample.comment_form
                   eq_refl eq_refl eq_refl eq_refl)
                Sample.post5 _ eq_refl eq_refl).
  simpl. tauto.
Defined.

(** C10. Comment create checks neither the date of the post nor its
    category: on a published post that is dated in the future, or whose
    category is unpublished, a logged-in viewer who is not the author is
    refused the detail page with NotFound, and yet a valid comment of theirs
    is stored and answered with a redirect. *)
Theorem comment_create_on_hidden_post
        (st : Store) (request : Request CommentForm.t) (p : Post.t)
        (author : Z) (name : string) (form : CommentForm.t)
        (Hunique : unique_pk Post.pk (posts st) = true)
        (Hin : In p (posts st))
        (Hpub : Post.is_published p = true)
        (Hhidden : now request < Post.pub_date p
                   \/ (forall c, In c (categories st) ->
                                 Category.pk c = Post.category p ->
                                 Category.is_published c = false))
        (Huser : user request = LoggedIn author name)
        (Hother : author <> Post.author p)
        (Hpost : method request = POST)
        (Hform : FORM request = Some form) :
  ~ publicly_visible st (now request) p
  /\ PostDetailView.get st request (Post.pk p) = HttpResponseNotFound
  /\ CommentCreateView.dispatch st request (Post.pk p)
     = (insert_comment (CommentForm.text form) (now request) author
                       (Post.pk p) st,
        HttpResponseRedirect (url_post_detail (Post.pk p)))
  /\ In {| Comment.pk := next_pk (map Comment.pk (comments st));
           Comment.text := CommentForm.text form;
           Comment.created_at := now request;
           Comment.author := author;
           Comment.post := Post.pk p |}
        (comments (fst (CommentCreateView.dispatch st request (Post.pk p)))).
Proof.
  assert (~ publicly_visible st (now request) p) as Hv.
  { intros (_ & Hdate & c & Hc & Hk & Hcp).
    destruct Hhidden as [Hfuture|Hcat]; [lia|].
    rewrite (Hcat c Hc Hk) in Hcp. discriminate. }
  split; [exact Hv|]. split.
  - unfold PostDetailView.get.
    rewrite (PostDetailView_hidden st request p Hunique Hin); auto.
    rewrite Huser. simpl. exact Hother.
  - rewrite (CommentCreateView_published st request p author name form);
      auto.
    split; [reflexivity|]. simpl. apply in_or_app. right. left. reflexivity.
Qed.

(** Bob comments on alice's post 7 (dated in the future) of the sample
    store. *)
Lemma comment_create_on_hidden_post_witness :
  PostDetailView.get
    Sample.store
    (Sample.request Sample.as_bob POST 1 (Some Sample.comment_form)) 7
  = HttpResponseNotFound
  /\ CommentCreateView.dispatch
       Sample.store
       (Sample.request Sample.as_bob POST 1 (Some Sample.comment_form)) 7
     = (insert_comment "edited" 200 2 7 Sample.store,
        HttpResponseRedirect (url_post_detail 7)).
Proof.
  assert (In Sample.post7 (posts Sample.store)) as Hin by (simpl; tauto).
  assert (200 < Post.pub_date Sample.post7) as Hfuture by (simpl; lia).
  assert (2 <> Post.author Sample.post7) as Hother by (simpl; lia).
  destruct (comment_create_on_hidden_post
              Sample.store
              (Sample.request Sample.as_bob POST 1 (Some Sample.comment_form))
              Sample.post7 2 "bob" Sample.comment_form
              eq_refl Hin eq_refl (or_introl Hfuture) eq_refl Hother
              eq_refl eq_refl) as (_ & Hdetail & Hcreate & _).
  split; [exact Hdetail|exact Hcreate].
Defined.

(** * Further properties of the views *)

(** ** The comments of the detail page *)

Section OrderByAsc.
Context {A : Type} (key : A -> Z).

Lemma insert_asc_perm (a : A) (l : list A) :
  Permutation (insert_asc key a l) (a :: l).
Proof.
  induction l as [|b l IH]; simpl; [reflexivity|].
  destruct (key a <? key b); [reflexivity|].
  rewrite IH. apply perm_swap.
Qed.

Lemma order_by_asc_perm (l : list A) : Permutation (order_by_asc key l) l.
Proof.
  induction l as [|a l IH]; simpl; [reflexivity|].
  rewrite insert_asc_perm. constructor. exact IH.
Qed.

Lemma insert_asc_sorted (a : A) (l : list A) :
  StronglySorted (fun x y => key x <= key y) l ->
  StronglySorted (fun x y => key x <= key y) (insert_asc key a l).
Proof.
  induction 1 as [|b l Hs IH Hall]; simpl.
  - constructor; constructor.
  - destruct (key a <? key b) eqn:E.
    + apply Z.ltb_lt in E.
      constructor; [constructor; assumption|].
      constructor; [lia|].
      rewrite Forall_forall in *. intros x Hx. specialize (Hall x Hx). lia.
    + apply Z.ltb_ge in E.
      constructor; [exact IH|].
      rewrite Forall_forall in *. intros x Hx.
      apply (Permutation_in _ (insert_asc_perm a l)) in Hx.
      destruct Hx as [<-|Hx]; [exact E|apply Hall, Hx].
Qed.

Lemma order_by_asc_sorted (l : list A) :
  StronglySorted (fun x y => key x <= key y) (order_by_asc key l).
Proof.
  induction l as [|a l IH]; simpl; [constructor|].
  apply insert_asc_sorted, IH.
Qed.

End OrderByAsc.

(** X1. The detail page shows under a post exactly the comments written on
    that post, each once, oldest first. *)
Theorem detail_comments (st : Store) (object : Row) :
  exists shown,
    PostDetailView.get_context_data st object = DetailContext object shown
    /\ (forall c, In c shown <->
                  In c (comments st)
                  /\ Comment.post c = Post.pk (instance object))
    /\ Permutation shown (post_comments st (Post.pk (instance object)))
    /\ StronglySorted
         (fun c d => Comment.created_at c <= Comment.created_at d) shown.
Proof.
  eexists. split; [reflexivity|].
  pose proof (order_by_asc_perm
                Comment.created_at
                (post_comments st (Post.pk (instance object)))) as Hperm.
  split; [|split; [exact Hperm|apply order_by_asc_sorted]].
  intros c. split.
  - intros Hin. apply (Permutation_in _ Hperm) in Hin.
    unfold post_comments in Hin. apply filter_In in Hin.
    destruct Hin as [Hin Hk]. apply Z.eqb_eq in Hk. auto.
  - intros [Hin Hk]. apply (Permutation_in _ (Permutation_sym Hperm)).
    unfold post_comments. apply filter_In. split; [exact Hin|].
    apply Z.eqb_eq, Hk.
Qed.

(** ** Keys stay unique *)

Lemma distinct_NoDup (l : list Z) : distinct Z.eqb l = true <-> NoDup l.
Proof.
  induction l as [|k l IH]; simpl.
  - split; [constructor|reflexivity].
  - rewrite andb_true_iff, negb_true_iff, IH. split.
    + intros [Hk Hl]. constructor; [|exact Hl].
      intros Hin.
      assert (existsb (Z.eqb k) l = true) as Ht
        by (apply existsb_exists; exists k; split; [exact Hin|apply Z.eqb_refl]).
      congruence.
    + intros H. inversion H as [|k' l' Hk Hl]; subst. split; [|exact Hl].
      destruct (existsb (Z.eqb k) l) eqn:E; [|reflexivity].
      apply existsb_exists in E. destruct E as (x & Hx & Hkx).
      apply Z.eqb_eq in Hkx. subst x. contradiction.
Qed.

Lemma NoDup_map_filter {A : Type} (key : A -> Z) (f : A -> bool) (l : list A) :
  NoDup (map key l) -> NoDup (map key (filter f l)).
Proof.
  induction l as [|a l IH]; simpl; intros H; [constructor|].
  inversion H as [|k l' Hk Hl]; subst.
  destruct (f a); simpl; [|apply IH, Hl].
  constructor; [|apply IH, Hl].
  intros Hin. apply Hk. apply in_map_iff in Hin.
  destruct Hin as (x & Hx & Hin). apply filter_In in Hin.
  rewrite <- Hx. apply in_map, Hin.
Qed.

Lemma NoDup_snoc (l : list Z) (k : Z) :
  NoDup l -> ~ In k l -> NoDup (l ++ [k]).
Proof.
  intros Hl Hk. apply NoDup_app.
  - exact Hl.
  - constructor; [intros []|constructor].
  - intros x Hx [<-|[]]. exact (Hk Hx).
Qed.

(** Saving an existing row leaves the keys of its table as they were. *)
Lemma map_pk_replace {A : Type} (key : A -> Z) (k : Z) (a : A) (l : list A) :
  key a = k ->
  map key (map (fun b => if key b =? k then a else b) l) = map key l.
Proof.
  intros Hk. rewrite map_map. apply map_ext. intros b.
  destruct (key b =? k) eqn:E; [|reflexivity].
  apply Z.eqb_eq in E. congruence.
Qed.

(** ** Post create *)

(** X2. A valid post form sent by a logged-in viewer adds one post to the
    store: under a key no post had, with the form's fields, and with the
    viewer as author; nothing else changes, and the viewer is sent to
    their own profile page. *)
Theorem post_create (st : Store) (request : Request PostForm.t)
        (author : Z) (username : string) (form : PostForm.t)
        (Huser : user request = LoggedIn author username)
        (Hpost : method request = POST)
        (Hform : FORM request = Some form) :
  exists post,
    PostCreateView.dispatch st request
    = ({| users := users st; categories := categories st;
          posts := posts st ++ [post]; comments := comments st |},
       HttpResponseRedirect (url_profile username))
    /\ Post.author post = author
    /\ ~ In (Post.pk post) (map Post.pk (posts st))
    /\ PostForm.save form post = post.
Proof.
  unfold PostCreateView.dispatch, PostCreateView.form_valid.
  rewrite Huser, Hpost, Hform. simpl.
  eexists. split; [reflexivity|]. simpl.
  split; [reflexivity|]. split; [apply next_pk_fresh|reflexivity].
Qed.

(** Alice posts the sample form to the sample store. *)
Lemma post_create_witness :
  exists post,
    PostCreateView.dispatch
      Sample.store
      (Sample.request Sample.as_alice POST 1 (Some Sample.post_form))
    = ({| users := users Sample.store; categories := categories Sample.store;
          posts := posts Sample.store ++ [post];
          comments := comments Sample.store |},
       HttpResponseRedirect (url_profile "alice"))
    /\ Post.author post = 1
    /\ ~ In (Post.pk post) (map Post.pk (posts Sample.store))
    /\ PostForm.save Sample.post_form post = post.
Proof.
  exact (post_create Sample.store
           (Sample.request Sample.as_alice POST 1 (Some Sample.post_form))
           1 "alice" Sample.post_form eq_refl eq_refl eq_refl).
Defined.

Lemma insert_post_unique (st : Store) (form : PostForm.t) (author : Z) :
  unique_pk Post.pk (posts st) = true ->
  unique_pk Post.pk (posts (PostCreateView.insert_post form author st)) = true.
Proof.
  unfold unique_pk. rewrite !distinct_NoDup. intros H. simpl.
  rewrite map_app. simpl. apply NoDup_snoc; [exact H|apply next_pk_fresh].
Qed.

(** X3. Create, then read back: the author who has just created a post
    gets it on its detail page with the submitted fields, whether or not
    it is published, dated in the future or in an unpublished category. *)
Theorem post_create_then_detail
        (st : Store) (request : Request PostForm.t)
        (author : Z) (username : string) (form : PostForm.t)
        (Hunique : unique_pk Post.pk (posts st) = true)
        (Huser : user request = LoggedIn author username)
        (Hpost : method request = POST)
        (Hform : FORM request = Some form) :
  let st' := fst (PostCreateView.dispatch st request) in
  forall (F : Type) (later : Request F),
    user later = user request ->
    exists post,
      PostDetailView.get_object st' later
                                (next_pk (map Post.pk (posts st)))
      = Ok {| instance := post; comment_count := None |}
      /\ Post.author post = author
      /\ Post.title post = PostForm.title form
      /\ Post.text post = PostForm.text form
      /\ Post.pub_date post = PostForm.pub_date form
      /\ Post.is_published post = PostForm.is_published form
      /\ Post.category post = PostForm.category form
      /\ Post.location post = PostForm.location form.
Proof.
  intros st' F later Hlater.
  assert (st' = PostCreateView.insert_post form author st) as ->.
  { unfold st', PostCreateView.dispatch, PostCreateView.form_valid.
    rewrite Huser, Hpost, Hform. reflexivity. }
  set (post := {| Post.pk := next_pk (map Post.pk (posts st));
                  Post.title := PostForm.title form;
                  Post.text := PostForm.text form;
                  Post.pub_date := PostForm.pub_date form;
                  Post.is_published := PostForm.is_published form;
                  Post.author := author;
                  Post.category := PostForm.category form;
                  Post.location := PostForm.location form |}).
  exists post. split; [|repeat split].
  assert (In post (posts (PostCreateView.insert_post form author st))) as Hin
    by (simpl; apply in_or_app; right; left; reflexivity).
  unfold PostDetailView.get_object, get_object_or_404 at 1.
  change (next_pk (map Post.pk (posts st))) with (Post.pk post).
  rewrite (get_post_by_pk _ post (insert_post_unique st form author Hunique)
                          Hin).
  simpl bind. cbv zeta.
  rewrite Hlater, Huser. simpl. rewrite Z.eqb_refl. reflexivity.
Qed.

(** Alice creates a post in the sample store and opens it. *)
Lemma post_create_then_detail_witness :
  exists post,
    PostDetailView.get_object
      (fst (PostCreateView.dispatch
              Sample.store
              (Sample.request Sample.as_alice POST 1
                              (Some Sample.post_form))))
      (@Sample.request unit Sample.as_alice GET 1 None)
      (next_pk (map Post.pk (posts Sample.store)))
    = Ok {| instance := post; comment_count := None |}
    /\ Post.author post = 1
    /\ Post.title post = PostForm.title Sample.post_form
    /\ Post.text post = PostForm.text Sample.post_form
    /\ Post.pub_date post = PostForm.pub_date Sample.post_form
    /\ Post.is_published post = PostForm.is_published Sample.post_form
    /\ Post.category post = PostForm.category Sample.post_form
    /\ Post.location post = PostForm.location Sample.post_form.
Proof.
  exact (post_create_then_detail
           Sample.store
           (Sample.request Sample.as_alice POST 1 (Some Sample.post_form))
           1 "alice" Sample.post_form eq_refl eq_refl eq_refl eq_refl
           unit (@Sample.request unit Sample.as_alice GET 1 None) eq_refl).
Defined.

(** ** Requests that write nothing *)

(** X4. An anonymous viewer changes nothing through any view that writes:
    every such request leaves the store as it was and is answered with a
    redirect, to the login page or, for post update, to the detail page of
    the post id of the URL. *)
Theorem anonymous_writes_nothing
        (st : Store) (pk comment_pk : Z)
        (post_request : Request PostForm.t)
        (comment_request : Request CommentForm.t)
        (delete_request : Request unit)
        (Hpost : user post_request = AnonymousUser)
        (Hcomment : user comment_request = AnonymousUser)
        (Hdelete : user delete_request = AnonymousUser) :
  PostCreateView.dispatch st post_request
  = (st, HttpResponseRedirect url_login)
  /\ PostUpdateView.dispatch st post_request pk
     = (st, HttpResponseRedirect (url_post_detail pk))
  /\ PostDeleteView.dispatch st delete_request pk
     = (st, HttpResponseRedirect url_login)
  /\ CommentCreateView.dispatch st comment_request pk
     = (st, HttpResponseRedirect url_login)
  /\ CommentUpdateView.dispatch st comment_request pk comment_pk
     = (st, HttpResponseRedirect url_login)
  /\ CommentDeleteView.dispatch st delete_request pk comment_pk
     = (st, HttpResponseRedirect url_login)
  /\ (forall (F : Type) (save : F -> User.t -> User.t) (request : Request F),
        user request = AnonymousUser ->
        ProfileEditView.dispatch save st request
        = (st, HttpResponseRedirect url_login)).
Proof.
  unfold PostCreateView.dispatch, PostUpdateView.dispatch,
    PostDeleteView.dispatch, CommentCreateView.dispatch,
    CommentUpdateView.dispatch, CommentDeleteView.dispatch,
    ProfileEditView.dispatch.
  rewrite Hpost, Hcomment, Hdelete.
  repeat split. intros F save request ->. reflexivity.
Qed.

(** Anonymous requests on the sample store. *)
Lemma anonymous_writes_nothing_witness :
  PostUpdateView.dispatch
    Sample.store
    (Sample.request AnonymousUser POST 1 (Some Sample.post_form)) 5
  = (Sample.store, HttpResponseRedirect (url_post_detail 5))
  /\ CommentDeleteView.dispatch
       Sample.store (@Sample.request unit AnonymousUser POST 1 None) 5 1
     = (Sample.store, HttpResponseRedirect url_login).
Proof.
  destruct (anonymous_writes_nothing
              Sample.store 5 1
              (Sample.request AnonymousUser POST 1 (Some Sample.post_form))
              (Sample.request AnonymousUser POST 1 (Some Sample.comment_form))
              (@Sample.request unit AnonymousUser POST 1 None)
              eq_refl eq_refl eq_refl)
    as (_ & Hupdate & _ & _ & _ & Hdelete & _).
  split; [exact Hupdate|exact Hdelete].
Defined.

Lemma serve_fst_const (st : Store) (r : result (Store * Response)) :
  (forall out, r = Ok out -> fst out = st) -> fst (serve st r) = st.
Proof.
  intros H. destruct r as [out|e]; simpl.
  - apply H. reflexivity.
  - destruct e; reflexivity.
Qed.

(** X5. Reading a form page, or sending a form that does not validate,
    writes nothing: a GET to any of the writing views, and a POST with an
    invalid form to the create and update views, leave the store as it
    was, whoever asks. *)
Theorem reads_write_nothing
        (st : Store) (pk comment_pk : Z)
        (post_request : Request PostForm.t)
        (comment_request : Request CommentForm.t)
        (delete_request : Request unit)
        (Hpost : method post_request = GET \/ FORM post_request = None)
        (Hcomment : method comment_request = GET
                    \/ FORM comment_request = None)
        (Hdelete : method delete_request = GET) :
  fst (PostCreateView.dispatch st post_request) = st
  /\ fst (PostUpdateView.dispatch st post_request pk) = st
  /\ fst (PostDeleteView.dispatch st delete_request pk) = st
  /\ fst (CommentCreateView.dispatch st comment_request pk) = st
  /\ fst (CommentUpdateView.dispatch st comment_request pk comment_pk) = st
  /\ fst (CommentDeleteView.dispatch st delete_request pk comment_pk) = st.
Proof.
  unfold PostCreateView.dispatch, PostUpdateView.dispatch,
    PostDeleteView.dispatch, CommentCreateView.dispatch,
    CommentUpdateView.dispatch, CommentDeleteView.dispatch.
  repeat split.
  - destruct (negb (is_authenticated (user post_request))); [reflexivity|].
    apply serve_fst_const. intros out.
    destruct Hpost as [H|H]; rewrite H;
      [|destruct (method post_request)]; intros [= <-]; reflexivity.
  - destruct (negb (is_authenticated (user post_request))); [reflexivity|].
    apply serve_fst_const. intros out.
    destruct (SingleObjectMixin_get_object _ pk); simpl; [|discriminate].
    destruct Hpost as [H|H]; rewrite H;
      [|destruct (method post_request)]; intros [= <-]; reflexivity.
  - destruct (negb (is_authenticated (user delete_request))); [reflexivity|].
    apply serve_fst_const. intros out. rewrite Hdelete.
    destruct (PostDeleteView.get_object st delete_request pk); simpl;
      [|discriminate].
    intros [= <-]. reflexivity.
  - destruct (negb (is_authenticated (user comment_request)));
      [reflexivity|].
    apply serve_fst_const. intros out.
    destruct Hcomment as [H|H]; rewrite H;
      [|destruct (method comment_request)]; discriminate.
  - destruct (negb (is_authenticated (user comment_request)));
      [reflexivity|].
    apply serve_fst_const. intros out.
    destruct (CommentChangeMixin.get_object st comment_request pk comment_pk)
      as [object|e]; simpl; [|discriminate].
    destruct (CommentChangeMixin.as_instance object); simpl; [|discriminate].
    destruct Hcomment as [H|H]; rewrite H;
      [|destruct (method comment_request)]; intros [= <-]; reflexivity.
  - destruct (negb (is_authenticated (user delete_request))); [reflexivity|].
    apply serve_fst_const. intros out. rewrite Hdelete.
    destruct (CommentChangeMixin.get_object st delete_request pk comment_pk);
      simpl; [|discriminate].
    intros [= <-]. reflexivity.
Qed.

(** Alice opens the edit page of her post 5 and sends an invalid form. *)
Lemma reads_write_nothing_witness :
  fst (PostUpdateView.dispatch
         Sample.store (Sample.request Sample.as_alice POST 1 None) 5)
  = Sample.store.
Proof.
  exact (proj1 (proj2
           (reads_write_nothing
              Sample.store 5 1
              (Sample.request Sample.as_alice POST 1 None)
              (Sample.request Sample.as_alice GET 1 None)
              (@Sample.request unit Sample.as_alice GET 1 None)
              (or_intror eq_refl) (or_introl eq_refl) eq_refl))).
Defined.

(** X6. The comment form page cannot be shown: for a logged-in viewer a GET
    to the comment-create route, and a POST whose form does not validate,
    end in a server error on every store and every post id, because
    [get_context_data] calls a method that does not exist; nothing is
    stored. *)
Theorem comment_form_page_fails
        (st : Store) (request : Request CommentForm.t) (pk : Z)
        (Hauth : is_authenticated (user request) = true)
        (Hform : method request = GET \/ FORM request = None) :
  CommentCreateView.dispatch st request pk = (st, HttpResponseServerError).
Proof.
  unfold CommentCreateView.dispatch. rewrite Hauth. simpl negb. cbv iota.
  destruct Hform as [H|H]; rewrite H; [reflexivity|].
  destruct (method request); reflexivity.
Qed.

(** Bob opens the comment form of post 5. *)
Lemma comment_form_page_fails_witness :
  CommentCreateView.dispatch
    Sample.store (Sample.request Sample.as_bob GET 1 None) 5
  = (Sample.store, HttpResponseServerError).
Proof.
  exact (comment_form_page_fails
           Sample.store (Sample.request Sample.as_bob GET 1 None) 5
           eq_refl (or_introl eq_refl)).
Defined.

(** ** What a request can do to the store *)

Lemma get_Ok_inv {A : Type} (lookup : A -> bool) (qs : list A) (a : A) :
  get lookup qs = Ok a -> In a qs /\ lookup a = true.
Proof.
  unfold get. intros H.
  assert (In a (filter lookup qs)) as Hin.
  { destruct (filter lookup qs) as [|x [|y l]]; try discriminate.
    injection H as ->. left. reflexivity. }
  apply filter_In in Hin. exact Hin.
Qed.

Lemma get_object_or_404_Ok_inv {A : Type} (lookup : A -> bool) (qs : list A)
      (a : A) :
  get_object_or_404 qs lookup = Ok a -> In a qs /\ lookup a = true.
Proof.
  unfold get_object_or_404. intros H. apply get_Ok_inv.
  destruct (get lookup qs) as [x|e]; [exact H|destruct e; discriminate].
Qed.

Lemma SingleObjectMixin_Ok_inv (queryset : list Row) (pk : Z) (r : Row) :
  SingleObjectMixin_get_object queryset pk = Ok r ->
  In r queryset /\ Post.pk (instance r) = pk.
Proof.
  unfold SingleObjectMixin_get_object. intros H.
  assert (get (pk_is pk) queryset = Ok r) as Hget
    by (destruct (get (pk_is pk) queryset) as [x|e];
        [exact H|destruct e; discriminate]).
  apply get_Ok_inv in Hget. destruct Hget as [Hin Hk].
  split; [exact Hin|apply Z.eqb_eq, Hk].
Qed.

Lemma Write_serve (viewer : RequestUser) (st : Store)
      (r : result (Store * Response)) :
  (forall out, r = Ok out -> Write viewer st (fst out)) ->
  Write viewer st (fst (serve st r)).
Proof.
  intros H. destruct r as [out|e]; simpl.
  - apply H. reflexivity.
  - destruct e; constructor.
Qed.

(** Every request to a writing view does one of the writes. *)
Lemma Handled_Write (viewer : RequestUser) (st st' : Store) :
  Handled viewer st st' -> Write viewer st st'.
Proof.
  intros H. destruct H as [|request Hv|request pk Hv|request pk Hv
                           |request pk Hv|request pk comment_pk Hv
                           |request pk comment_pk Hv].
  - constructor.
  - (* post create *)
    unfold PostCreateView.dispatch.
    destruct (negb (is_authenticated (user request))); [constructor|].
    apply Write_serve. intros out E.
    destruct (method request); [injection E as <-; constructor|].
    destruct (FORM request) as [form|]; [|injection E as <-; constructor].
    unfold PostCreateView.form_valid in E. rewrite Hv in E.
    destruct viewer as [|author username]; [discriminate|].
    injection E as <-. econstructor. reflexivity.
  - (* post update *)
    unfold PostUpdateView.dispatch.
    destruct (negb (is_authenticated (user request))); [constructor|].
    apply Write_serve. intros out E.
    destruct (SingleObjectMixin_get_object
                (PostUpdateView.get_queryset st request) pk)
      as [object|e] eqn:Hobj; [|discriminate].
    simpl in E.
    apply SingleObjectMixin_Ok_inv in Hobj. destruct Hobj as [Hin _].
    unfold PostUpdateView.get_queryset in Hin. apply filter_In in Hin.
    destruct Hin as [Hin Hown].
    apply negb_true_iff, user_ne_false in Hown. rewrite Hv in Hown.
    apply Post_objects_instance in Hin.
    destruct (method request); [injection E as <-; constructor|].
    destruct (FORM request) as [form|]; [|injection E as <-; constructor].
    injection E as <-. constructor; assumption.
  - (* post delete *)
    unfold PostDeleteView.dispatch.
    destruct (negb (is_authenticated (user request))); [constructor|].
    apply Write_serve. intros out E.
    unfold PostDeleteView.get_object in E.
    destruct (SingleObjectMixin_get_object (Post_objects st) pk)
      as [post|e] eqn:Hobj; [|discriminate].
    apply SingleObjectMixin_Ok_inv in Hobj. destruct Hobj as [Hin _].
    apply Post_objects_instance in Hin. simpl in E.
    destruct (user_ne (user request) (Post.author (instance post))) eqn:Hne;
      simpl in E.
    + destruct (method request); [injection E as <-; constructor|].
      discriminate.
    + apply user_ne_false in Hne. rewrite Hv in Hne.
      destruct (method request); injection E as <-; constructor;
        assumption.
  - (* comment create *)
    unfold CommentCreateView.dispatch.
    destruct (negb (is_authenticated (user request))); [constructor|].
    apply Write_serve. intros out E.
    destruct (method request); [discriminate|].
    destruct (FORM request) as [form|]; [|discriminate].
    unfold CommentCreateView.form_valid, CommentCreateView.get_object in E.
    destruct (get_object_or_404
                (Post_objects st)
                (fun r => pk_is pk r && Post.is_published (instance r)))
      as [post|e] eqn:Hobj; [|discriminate].
    apply get_object_or_404_Ok_inv in Hobj. destruct Hobj as [Hin Hlook].
    apply andb_true_iff in Hlook. destruct Hlook as [_ Hpub].
    apply Post_objects_instance in Hin. simpl in E. rewrite Hv in E.
    destruct viewer as [|author username]; [discriminate|].
    injection E as <-. econstructor; [reflexivity|assumption..].
  - (* comment update *)
    unfold CommentUpdateView.dispatch.
    destruct (negb (is_authenticated (user request))); [constructor|].
    apply Write_serve. intros out E.
    unfold CommentChangeMixin.get_object in E.
    destruct (get_object_or_404 (comments st)
                                (fun c => Comment.pk c =? comment_pk))
      as [comment|e] eqn:Hobj; [|discriminate].
    apply get_object_or_404_Ok_inv in Hobj. destruct Hobj as [Hin _].
    simpl in E.
    destruct (user_ne (user request) (Comment.author comment)) eqn:Hne;
      simpl in E; [discriminate|].
    apply user_ne_false in Hne. rewrite Hv in Hne.
    destruct (method request); [injection E as <-; constructor|].
    destruct (FORM request) as [form|]; [|injection E as <-; constructor].
    injection E as <-. constructor; assumption.
  - (* comment delete *)
    unfold CommentDeleteView.dispatch.
    destruct (negb (is_authenticated (user request))); [constructor|].
    apply Write_serve. intros out E.
    unfold CommentChangeMixin.get_object in E.
    destruct (get_object_or_404 (comments st)
                                (fun c => Comment.pk c =? comment_pk))
      as [comment|e] eqn:Hobj; [|discriminate].
    apply get_object_or_404_Ok_inv in Hobj. destruct Hobj as [Hin _].
    simpl in E.
    destruct (user_ne (user request) (Comment.author comment)) eqn:Hne;
      simpl in E.
    + destruct (method request); [injection E as <-; constructor|].
      discriminate.
    + apply user_ne_false in Hne. rewrite Hv in Hne.
      destruct (method request); injection E as <-; constructor;
        assumption.
Qed.

Lemma comments_attached_spec (st : Store) :
  comments_attached st = true <->
  forall c, In c (comments st) -> In (Comment.post c) (map Post.pk (posts st)).
Proof.
  unfold comments_attached. rewrite forallb_forall.
  split; intros H c Hc; specialize (H c Hc).
  - apply existsb_exists in H. destruct H as (p & Hp & Hk).
    apply Z.eqb_eq in Hk. rewrite <- Hk. apply in_map, Hp.
  - apply in_map_iff in H. destruct H as (p & Hk & Hp).
    apply existsb_exists. exists p. split; [exact Hp|apply Z.eqb_eq, Hk].
Qed.

Lemma in_map_replace {A : Type} (key : A -> Z) (k : Z) (a b : A)
      (l : list A) :
  In b (map (fun x => if key x =? k then a else x) l) ->
  b = a \/ In b l.
Proof.
  intros H. apply in_map_iff in H. destruct H as (x & Hx & Hin).
  destruct (key x =? k); [left; symmetry; exact Hx|].
  right. subst b. exact Hin.
Qed.

Lemma in_map_replace_other {A : Type} (key : A -> Z) (k : Z) (a b : A)
      (l : list A) :
  In b l -> key b <> k ->
  In b (map (fun x => if key x =? k then a else x) l).
Proof.
  intros Hin Hk. apply in_map_iff. exists b. split; [|exact Hin].
  destruct (key b =? k) eqn:E; [|reflexivity].
  apply Z.eqb_eq in E. contradiction.
Qed.

(** X7. Whatever request the writing views serve, primary keys stay unique
    in the post and comment tables, and the user and category tables are
    not touched. *)
Theorem handled_keeps_keys_unique
        (viewer : RequestUser) (st st' : Store)
        (Hstep : Handled viewer st st')
        (Hposts : unique_pk Post.pk (posts st) = true)
        (Hcomments : unique_pk Comment.pk (comments st) = true) :
  unique_pk Post.pk (posts st') = true
  /\ unique_pk Comment.pk (comments st') = true
  /\ users st' = users st
  /\ categories st' = categories st.
Proof.
  apply Handled_Write in Hstep.
  unfold unique_pk in *. rewrite !distinct_NoDup in *.
  destruct Hstep; simpl; repeat split; try assumption;
    first [ rewrite map_app; apply NoDup_snoc;
            [assumption|apply next_pk_fresh]
          | rewrite (map_pk_replace Post.pk); [assumption|reflexivity]
          | rewrite (map_pk_replace Comment.pk); [assumption|reflexivity]
          | apply NoDup_map_filter; assumption ].
Qed.

(** Bob comments on post 5 of the sample store. *)
Lemma handled_keeps_keys_unique_witness :
  unique_pk
    Comment.pk
    (comments
       (fst (CommentCreateView.dispatch
               Sample.store
               (Sample.request Sample.as_bob POST 1
                               (Some Sample.comment_form)) 5)))
  = true.
Proof.
  refine (proj1 (proj2
            (handled_keeps_keys_unique
               Sample.as_bob Sample.store _
               (handled_comment_create
                  Sample.as_bob Sample.store
                  (Sample.request Sample.as_bob POST 1
                                  (Some Sample.comment_form)) 5 eq_refl)
               eq_refl eq_refl))).
Defined.

(** X8. No request leaves a comment without its post: if every comment of
    the store hangs on a post of the store, it is so after any request to
    a writing view (a deleted post takes its comments with it, and a
    comment is only created on a post that was found). *)
Theorem handled_keeps_comments_attached
        (viewer : RequestUser) (st st' : Store)
        (Hstep : Handled viewer st st')
        (Hattached : comments_attached st = true) :
  comments_attached st' = true.
Proof.
  apply Handled_Write in Hstep.
  rewrite comments_attached_spec in *.
  destruct Hstep as [|form author username _|p form Hp _|p Hp _
                     |p text created_at author username _ Hp _
                     |c form Hc _|c Hc _]; simpl; intros d Hd.
  - apply Hattached, Hd.
  - rewrite map_app. apply in_or_app. left. apply Hattached, Hd.
  - rewrite (map_pk_replace Post.pk); [|reflexivity]. apply Hattached, Hd.
  - apply filter_In in Hd. destruct Hd as [Hd Hk].
    apply negb_true_iff, Z.eqb_neq in Hk.
    specialize (Hattached d Hd). apply in_map_iff in Hattached.
    destruct Hattached as (q & Hq & Hin).
    apply in_map_iff. exists q. split; [exact Hq|].
    apply filter_In. split; [exact Hin|].
    apply negb_true_iff, Z.eqb_neq. congruence.
  - apply in_app_or in Hd. destruct Hd as [Hd|[<-|[]]].
    + apply Hattached, Hd.
    + simpl. apply in_map, Hp.
  - apply in_map_replace in Hd. destruct Hd as [->|Hd].
    + simpl. apply Hattached, Hc.
    + apply Hattached, Hd.
  - apply filter_In in Hd. apply Hattached, Hd.
Qed.

(** Alice deletes her post 5 of the sample store, and its comment goes. *)
Lemma handled_keeps_comments_attached_witness :
  comments_attached
    (fst (PostDeleteView.dispatch
            Sample.store (@Sample.request unit Sample.as_alice POST 1 None) 5))
  = true.
Proof.
  refine (handled_keeps_comments_attached
            Sample.as_alice Sample.store _
            (handled_post_delete
               Sample.as_alice Sample.store
               (@Sample.request unit Sample.as_alice POST 1 None) 5 eq_refl)
            eq_refl).
Defined.

(** X9. Only its author can change or remove a post: if a post of a store
    with unique keys is no longer in the store after a request to any
    writing view, the viewer who sent the request is the post's author. *)
Theorem only_author_changes_post
        (viewer : RequestUser) (st st' : Store) (p : Post.t)
        (Hstep : Handled viewer st st')
        (Hunique : unique_pk Post.pk (posts st) = true)
        (Hin : In p (posts st))
        (Hgone : ~ In p (posts st')) :
  is_user viewer (Post.author p).
Proof.
  apply Handled_Write in Hstep.
  destruct Hstep as [|form author username _|q form Hq Hown|q Hq Hown
                     |q text created_at author username _ Hq _
                     |c form Hc _|c Hc _]; simpl in Hgone;
    try (exfalso; apply Hgone; assumption).
  - exfalso. apply Hgone. apply in_or_app. left. exact Hin.
  - destruct (Z.eq_dec (Post.pk p) (Post.pk q)) as [Hk|Hk].
    + rewrite (distinct_inj Z.eqb Z.eqb_eq Post.pk (posts st) p q); auto.
    + exfalso. apply Hgone. apply in_map_replace_other; assumption.
  - destruct (Z.eq_dec (Post.pk p) (Post.pk q)) as [Hk|Hk].
    + rewrite (distinct_inj Z.eqb Z.eqb_eq Post.pk (posts st) p q); auto.
    + exfalso. apply Hgone. apply filter_In. split; [exact Hin|].
      apply negb_true_iff, Z.eqb_neq, Hk.
Qed.

(** Alice deletes her post 5 of the sample store. *)
Lemma only_author_changes_post_witness :
  is_user Sample.as_alice (Post.author Sample.post5).
Proof.
  refine (only_author_changes_post
            Sample.as_alice Sample.store _ Sample.post5
            (handled_post_delete
               Sample.as_alice Sample.store
               (@Sample.request unit Sample.as_alice POST 1 None) 5 eq_refl)
            eq_refl _ _).
  - simpl. tauto.
  - vm_compute. intros [H|[H|[H|[H|[]]]]]; discriminate H.
Defined.

(** X10. A comment of a store with unique keys is changed or removed by a
    request only if the viewer is the comment's author, or is the author of
    the post it hangs on (who removed the post, and its comments with
    it). *)
Theorem only_author_changes_comment
        (viewer : RequestUser) (st st' : Store) (c : Comment.t)
        (Hstep : Handled viewer st st')
        (Hunique : unique_pk Comment.pk (comments st) = true)
        (Hin : In c (comments st))
        (Hgone : ~ In c (comments st')) :
  is_user viewer (Comment.author c)
  \/ exists p, In p (posts st) /\ Post.pk p = Comment.post c
               /\ is_user viewer (Post.author p).
Proof.
  apply Handled_Write in Hstep.
  destruct Hstep as [|form author username _|q form Hq Hown|q Hq Hown
                     |q text created_at author username _ Hq _
                     |d form Hd Hown|d Hd Hown]; simpl in Hgone;
    try (exfalso; apply Hgone; assumption).
  - right. exists q. split; [exact Hq|]. split; [|exact Hown].
    destruct (Z.eq_dec (Comment.post c) (Post.pk q)) as [Hk|Hk]; [auto|].
    exfalso. apply Hgone. apply filter_In. split; [exact Hin|].
    apply negb_true_iff, Z.eqb_neq, Hk.
  - exfalso. apply Hgone. apply in_or_app. left. exact Hin.
  - left. destruct (Z.eq_dec (Comment.pk c) (Comment.pk d)) as [Hk|Hk].
    + rewrite (distinct_inj Z.eqb Z.eqb_eq Comment.pk (comments st) c d); auto.
    + exfalso. apply Hgone. apply in_map_replace_other; assumption.
  - left. destruct (Z.eq_dec (Comment.pk c) (Comment.pk d)) as [Hk|Hk].
    + rewrite (distinct_inj Z.eqb Z.eqb_eq Comment.pk (comments st) c d); auto.
    + exfalso. apply Hgone. apply filter_In. split; [exact Hin|].
      apply negb_true_iff, Z.eqb_neq, Hk.
Qed.

(** Alice deletes her post 5 of the sample store; bob's comment 1 on it is
    gone. *)
Lemma only_author_changes_comment_witness :
  is_user Sample.as_alice (Comment.author Sample.comment1)
  \/ exists p, In p (posts Sample.store)
               /\ Post.pk p = Comment.post Sample.comment1
               /\ is_user Sample.as_alice (Post.author p).
Proof.
  refine (only_author_changes_comment
            Sample.as_alice Sample.store _ Sample.comment1
            (handled_post_delete
               Sample.as_alice Sample.store
               (@Sample.request unit Sample.as_alice POST 1 None) 5 eq_refl)
            eq_refl _ _).
  - simpl. tauto.
  - vm_compute. intros [H|[]]; discriminate H.
Defined.

(** X11. No request moves a post or a comment to another owner: in a store
    with unique keys, after any request to a writing view, the post under
    a given key still has the author it had, and the comment under a given
    key still has its author, its post and its creation time. *)
Theorem handled_keeps_authors
        (viewer : RequestUser) (st st' : Store)
        (Hstep : Handled viewer st st')
        (Hposts : unique_pk Post.pk (posts st) = true)
        (Hcomments : unique_pk Comment.pk (comments st) = true) :
  (forall p p', In p (posts st) -> In p' (posts st') ->
                Post.pk p' = Post.pk p -> Post.author p' = Post.author p)
  /\ (forall c c', In c (comments st) -> In c' (comments st') ->
                   Comment.pk c' = Comment.pk c ->
                   Comment.author c' = Comment.author c
                   /\ Comment.post c' = Comment.post c
                   /\ Comment.created_at c' = Comment.created_at c).
Proof.
  apply Handled_Write in Hstep.
  assert (forall p p', In p (posts st) -> In p' (posts st) ->
                       Post.pk p' = Post.pk p ->
                       Post.author p' = Post.author p) as Hsame_post.
  { intros p p' Hp Hp' Hk.
    rewrite (distinct_inj Z.eqb Z.eqb_eq Post.pk (posts st) p' p); auto. }
  assert (forall c c', In c (comments st) -> In c' (comments st) ->
                       Comment.pk c' = Comment.pk c ->
                       Comment.author c' = Comment.author c
                       /\ Comment.post c' = Comment.post c
                       /\ Comment.created_at c' = Comment.created_at c)
    as Hsame_comment.
  { intros c c' Hc Hc' Hk.
    rewrite (distinct_inj Z.eqb Z.eqb_eq Comment.pk (comments st) c' c);
      auto. }
  destruct Hstep as [|form author username _|q form Hq Hown|q Hq Hown
                     |q text created_at author username _ Hq _
                     |d form Hd Hown|d Hd Hown]; simpl;
    (split; [intros p p' Hp Hp' Hk|intros c c' Hc Hc' Hk]);
    try (apply Hsame_post; assumption);
    try (apply Hsame_comment; assumption).
  - apply in_app_or in Hp'. destruct Hp' as [Hp'|[<-|[]]].
    + apply Hsame_post; assumption.
    + exfalso. simpl in Hk.
      apply (next_pk_fresh (map Post.pk (posts st))).
      rewrite Hk. apply in_map, Hp.
  - apply in_map_replace in Hp'. destruct Hp' as [->|Hp'].
    + simpl in *. apply Hsame_post; assumption.
    + apply Hsame_post; assumption.
  - apply filter_In in Hp'. apply Hsame_post; tauto.
  - apply filter_In in Hc'. apply Hsame_comment; tauto.
  - apply in_app_or in Hc'. destruct Hc' as [Hc'|[<-|[]]].
    + apply Hsame_comment; assumption.
    + exfalso. simpl in Hk.
      apply (next_pk_fresh (map Comment.pk (comments st))).
      rewrite Hk. apply in_map, Hc.
  - apply in_map_replace in Hc'. destruct Hc' as [->|Hc'].
    + simpl in *. apply Hsame_comment; assumption.
    + apply Hsame_comment; assumption.
  - apply filter_In in Hc'. apply Hsame_comment; tauto.
Qed.

(** Alice edits her post 5 of the sample store: it is still hers. *)
Lemma handled_keeps_authors_witness :
  Post.author (PostForm.save Sample.post_form Sample.post5) = 1.
Proof.
  refine (proj1 (handled_keeps_authors
                   Sample.as_alice Sample.store _
                   (handled_post_update
                      Sample.as_alice Sample.store
                      (Sample.request Sample.as_alice POST 1
                                      (Some Sample.post_form)) 5 eq_refl)
                   eq_refl eq_refl)
                Sample.post5 (PostForm.save Sample.post_form Sample.post5)
                _ _ eq_refl).
  - simpl. tauto.
  - vm_compute. tauto.
Defined.

(** ** Profile edit *)

(** X12. The profile form always edits the viewer's own row: whatever form
    is sent, posts, comments and categories stay as they are, no user key
    changes, and every row of another user is left untouched; after a valid
    edit the viewer is sent to the profile page under the saved name. *)
Theorem profile_edit_only_self
        {F : Type} (save : F -> User.t -> User.t)
        (st : Store) (request : Request F)
        (Hsave : forall form u, User.pk (save form u) = User.pk u) :
  posts (fst (ProfileEditView.dispatch save st request)) = posts st
  /\ comments (fst (ProfileEditView.dispatch save st request)) = comments st
  /\ categories (fst (ProfileEditView.dispatch save st request))
     = categories st
  /\ map User.pk (users (fst (ProfileEditView.dispatch save st request)))
     = map User.pk (users st)
  /\ (forall u, In u (users st) -> ~ is_user (user request) (User.pk u) ->
                In u (users (fst (ProfileEditView.dispatch save st request))))
  /\ (forall pk username form,
        user request = LoggedIn pk username ->
        method request = POST -> FORM request = Some form ->
        snd (ProfileEditView.dispatch save st request)
        = HttpResponseRedirect
            (url_profile
               (User.username
                  (save form {| User.pk := pk; User.username := username |})))).
Proof.
  unfold ProfileEditView.dispatch.
  destruct (user request) as [|pk username] eqn:Huser.
  { simpl. repeat split; auto. intros; discriminate. }
  destruct (method request) eqn:Hmethod.
  { simpl. repeat split; auto. intros; discriminate. }
  destruct (FORM request) as [form|] eqn:Hform.
  2:{ simpl. repeat split; auto. intros; discriminate. }
  cbv zeta. simpl fst. simpl snd.
  unfold ProfileEditView.update_user, ProfileEditView.get_object. simpl.
  rewrite Hsave. simpl.
  repeat split.
  - apply (map_pk_replace User.pk). rewrite Hsave. reflexivity.
  - intros u Hin Hne. apply in_map_replace_other; [exact Hin|].
    intros Hk. apply Hne. symmetry. exact Hk.
  - intros pk' username' form' [= <- <-] _ [= <-]. reflexivity.
Qed.

(** Alice renames herself in the sample store; bob's row stays. *)
Lemma profile_edit_only_self_witness :
  In Sample.bob
     (users (fst (ProfileEditView.dispatch
                    rename Sample.store
                    (Sample.request Sample.as_alice POST 1 (Some "alicia")))))
  /\ snd (ProfileEditView.dispatch
            rename Sample.store
            (Sample.request Sample.as_alice POST 1 (Some "alicia")))
     = HttpResponseRedirect (url_profile "alicia").
Proof.
  destruct (profile_edit_only_self
              rename Sample.store
              (Sample.request Sample.as_alice POST 1 (Some "alicia"))
              (fun _ _ => eq_refl))
    as (_ & _ & _ & _ & Hothers & Hredirect).
  split.
  - apply Hothers; simpl; [tauto|lia].
  - exact (Hredirect 1 "alice" "alicia" eq_refl eq_refl eq_refl).
Defined.

(** ** What the author's delete and edit do *)

(** X13. A POST of the author to the delete route removes the post and the
    comments on it and nothing else, and answers with a redirect to the
    index; from then on the detail page of that post id is NotFound for
    every viewer. *)
Theorem post_delete_by_author
        {F : Type} (st : Store) (request : Request F) (p : Post.t)
        (Hunique : unique_pk Post.pk (posts st) = true)
        (Hin : In p (posts st))
        (Hown : is_user (user request) (Post.author p))
        (Hpost : method request = POST) :
  PostDeleteView.dispatch st request (Post.pk p)
  = (delete_post (Post.pk p) st, HttpResponseRedirect url_index)
  /\ (forall q, In q (posts (delete_post (Post.pk p) st)) <->
                In q (posts st) /\ q <> p)
  /\ (forall c, In c (comments (delete_post (Post.pk p) st)) <->
                In c (comments st) /\ Comment.post c <> Post.pk p)
  /\ (forall (G : Type) (later : Request G),
        PostDetailView.get (delete_post (Post.pk p) st) later (Post.pk p)
        = HttpResponseNotFound).
Proof.
  assert (forall q, In q (posts (delete_post (Post.pk p) st)) <->
                    In q (posts st) /\ q <> p) as Hposts.
  { intros q. simpl. rewrite filter_In, negb_true_iff, Z.eqb_neq.
    split; intros [Hq Hne]; (split; [exact Hq|]).
    - intros ->. apply Hne. reflexivity.
    - intros Hk. apply Hne.
      apply (distinct_inj Z.eqb Z.eqb_eq Post.pk (posts st)); auto. }
  split; [|split; [exact Hposts|split]].
  - assert (is_authenticated (user request) = true) as Hauth
      by (destruct (user request); [contradiction|reflexivity]).
    unfold PostDeleteView.dispatch, PostDeleteView.get_object.
    rewrite Hauth, (SingleObjectMixin_all_found st p Hunique Hin). simpl.
    apply user_ne_false in Hown. rewrite Hown, Hpost. reflexivity.
  - intros c. simpl. rewrite filter_In, negb_true_iff, Z.eqb_neq. tauto.
  - intros G later.
    unfold PostDetailView.get, PostDetailView.get_object,
      get_object_or_404 at 1.
    rewrite (get_post_no_pk (delete_post (Post.pk p) st) (Post.pk p)).
    + reflexivity.
    + intros q Hq Hk. apply Hposts in Hq. destruct Hq as [Hq Hne].
      apply Hne.
      apply (distinct_inj Z.eqb Z.eqb_eq Post.pk (posts st)); auto.
Qed.

(** Alice deletes her post 5 of the sample store. *)
Lemma post_delete_by_author_witness :
  PostDeleteView.dispatch
    Sample.store (@Sample.request unit Sample.as_alice POST 1 None) 5
  = (delete_post 5 Sample.store, HttpResponseRedirect url_index)
  /\ PostDetailView.get (delete_post 5 Sample.store)
                        (@Sample.request unit Sample.as_alice GET 1 None) 5
     = HttpResponseNotFound.
Proof.
  assert (In Sample.post5 (posts Sample.store)) as Hin by (simpl; tauto).
  destruct (post_delete_by_author
              Sample.store (@Sample.request unit Sample.as_alice POST 1 None)
              Sample.post5 eq_refl Hin eq_refl eq_refl)
    as (Hdelete & _ & _ & Hdetail).
  split; [exact Hdelete|].
  exact (Hdetail unit (@Sample.request unit Sample.as_alice GET 1 None)).
Defined.

(** X14. The author's valid edit of a comment rewrites the text of that
    comment and nothing else: the other comments and the posts stay, the
    comment keeps its key, author, post and creation time; the answer is a
    redirect to the detail page of the post id of the URL, whether or not
    the comment belongs to that post. *)
Theorem comment_update_by_author
        (st : Store) (request : Request CommentForm.t) (pk : Z)
        (c : Comment.t) (form : CommentForm.t)
        (Hunique : unique_pk Comment.pk (comments st) = true)
        (Hin : In c (comments st))
        (Hown : is_user (user request) (Comment.author c))
        (Hpost : method request = POST)
        (Hform : FORM request = Some form) :
  let edited := {| Comment.pk := Comment.pk c;
                   Comment.text := CommentForm.text form;
                   Comment.created_at := Comment.created_at c;
                   Comment.author := Comment.author c;
                   Comment.post := Comment.post c |} in
  let st' := fst (CommentUpdateView.dispatch st request pk (Comment.pk c)) in
  snd (CommentUpdateView.dispatch st request pk (Comment.pk c))
  = HttpResponseRedirect (url_post_detail pk)
  /\ posts st' = posts st
  /\ (forall d, In d (comments st') <->
                d = edited \/ (In d (comments st) /\ d <> c)).
Proof.
  intros edited st'.
  destruct (comment_change_by_author st request pk c form
                                     Hunique Hin Hown Hpost Hform) as [E _].
  unfold st'. rewrite E. simpl.
  split; [reflexivity|]. split; [reflexivity|].
  intros d. split.
  - intros Hd. apply in_map_iff in Hd. destruct Hd as (x & Hx & Hxin).
    destruct (Comment.pk x =? Comment.pk c) eqn:Hk.
    + left. symmetry. exact Hx.
    + right. subst d. split; [exact Hxin|].
      intros ->. rewrite Z.eqb_refl in Hk. discriminate.
  - intros [->|[Hd Hne]].
    + apply in_map_iff. exists c. split; [|exact Hin].
      rewrite Z.eqb_refl. reflexivity.
    + apply in_map_replace_other; [exact Hd|].
      intros Hk. apply Hne.
      apply (distinct_inj Z.eqb Z.eqb_eq Comment.pk (comments st)); auto.
Qed.

(** Bob edits his comment 1 under the URL of post 9 (it hangs on post 5). *)
Lemma comment_update_by_author_witness :
  snd (CommentUpdateView.dispatch
         Sample.store
         (Sample.request Sample.as_bob POST 1 (Some Sample.comment_form))
         9 1)
  = HttpResponseRedirect (url_post_detail 9).
Proof.
  assert (In Sample.comment1 (comments Sample.store)) as Hin
    by (simpl; tauto).
  exact (proj1 (comment_update_by_author
                  Sample.store
                  (Sample.request Sample.as_bob POST 1
                                  (Some Sample.comment_form))
                  9 Sample.comment1 Sample.comment_form
                  eq_refl Hin eq_refl eq_refl eq_refl)).
Defined.

(** X15. The author's POST to the comment-delete route removes that comment
    and nothing else, and answers with a redirect to the detail page of the
    post id of the URL. *)
Theorem comment_delete_by_author
        {F : Type} (st : Store) (request : Request F) (pk : Z)
        (c : Comment.t)
        (Hunique : unique_pk Comment.pk (comments st) = true)
        (Hin : In c (comments st))
        (Hown : is_user (user request) (Comment.author c))
        (Hpost : method request = POST) :
  CommentDeleteView.dispatch st request pk (Comment.pk c)
  = (delete_comment (Comment.pk c) st,
     HttpResponseRedirect (url_post_detail pk))
  /\ posts (delete_comment (Comment.pk c) st) = posts st
  /\ (forall d, In d (comments (delete_comment (Comment.pk c) st)) <->
                In d (comments st) /\ d <> c).
Proof.
  split; [|split; [reflexivity|]].
  - assert (is_authenticated (user request) = true) as Hauth
      by (destruct (user request); [contradiction|reflexivity]).
    apply user_ne_false in Hown.
    unfold CommentDeleteView.dispatch.
    rewrite Hauth,
      (CommentChangeMixin_get_object_spec st request pk c Hunique Hin).
    rewrite Hown, Hpost. reflexivity.
  - intros d. simpl. rewrite filter_In, negb_true_iff, Z.eqb_neq.
    split; intros [Hd Hne]; (split; [exact Hd|]).
    + intros ->. apply Hne. reflexivity.
    + intros Hk. apply Hne.
      apply (distinct_inj Z.eqb Z.eqb_eq Comment.pk (comments st)); auto.
Qed.

(** Bob deletes his comment 1 of the sample store. *)
Lemma comment_delete_by_author_witness :
  CommentDeleteView.dispatch
    Sample.store (@Sample.request unit Sample.as_bob POST 1 None) 5 1
  = (delete_comment 1 Sample.store, HttpResponseRedirect (url_post_detail 5)).
Proof.
  assert (In Sample.comment1 (comments Sample.store)) as Hin
    by (simpl; tauto).
  exact (proj1 (comment_delete_by_author
                  Sample.store
                  (@Sample.request unit Sample.as_bob POST 1 None)
                  5 Sample.comment1 eq_refl Hin eq_refl eq_refl)).
Defined.

(** ** More on the listings *)

(** X16. The profile page as the code serves it: an unknown user name is
    NotFound; the owner is shown every post they wrote; any other viewer is
    shown the owner's posts that are published and not dated in the future
    (whatever their category); in both cases by decreasing [pub_date]. *)
Theorem profile_listing {F : Type} (st : Store) (request : Request F)
        (username : string)
        (Hunique : unique_text User.username (users st) = true) :
  ((forall u, In u (users st) -> User.username u <> username) ->
   ProfileListView.get_queryset st request username = Raise Http404
   /\ ProfileListView.get st request username = HttpResponseNotFound)
  /\ (forall profile,
        In profile (users st) -> User.username profile = username ->
        exists queryset,
          ProfileListView.get_queryset st request username = Ok queryset
          /\ by_pub_date_desc (map instance queryset)
          /\ (is_user (user request) (User.pk profile) ->
              forall p, In p (map instance queryset) <->
                        In p (posts st) /\ Post.author p = User.pk profile)
          /\ (~ is_user (user request) (User.pk profile) ->
              forall p, In p (map instance queryset) <->
                        In p (posts st)
                        /\ Post.author p = User.pk profile
                        /\ Post.is_published p = true
                        /\ Post.pub_date p <= now request)).
Proof.
  split.
  - intros Hnone.
    assert (ProfileListView.get_queryset st request username = Raise Http404)
      as E.
    { unfold ProfileListView.get_queryset, get_object_or_404.
      rewrite (get_ext _ (fun u => String.eqb (User.username u) username
                                   && true)).
      - rewrite (get_missing String.eqb String.eqb_eq User.username
                             (users st) username (fun _ => true)).
        + reflexivity.
        + intros u Hu Hk. exfalso. exact (Hnone u Hu Hk).
      - intros u. symmetry. apply andb_true_r. }
    split; [exact E|].
    unfold ProfileListView.get, ListView_get. rewrite E. reflexivity.
  - intros profile Hin <-.
    destruct (ProfileListView_instances st request profile Hunique Hin)
      as (queryset & E & Hmap).
    exists queryset. split; [exact E|].
    cbv zeta in Hmap.
    assert (forall p,
               In p (order_by_desc
                       Post.pub_date
                       (filter (fun p => Post.author p =? User.pk profile)
                               (posts st))) <->
               In p (posts st) /\ Post.author p = User.pk profile) as Hown.
    { intros p. split.
      - intros Hp.
        apply (Permutation_in _ (order_by_desc_perm Post.pub_date _)) in Hp.
        apply filter_In in Hp. destruct Hp as [Hp Hk].
        apply Z.eqb_eq in Hk. auto.
      - intros [Hp Hk].
        apply (Permutation_in
                 _ (Permutation_sym (order_by_desc_perm Post.pub_date _))).
        apply filter_In. split; [exact Hp|apply Z.eqb_eq, Hk]. }
    destruct (user_ne (user request) (User.pk profile)) eqn:Hne.
    + split; [|split].
      * unfold by_pub_date_desc. rewrite Hmap.
        apply StronglySorted_filter.
        apply (order_by_desc_sorted Post.pub_date).
      * intros Hself. apply user_ne_false in Hself. congruence.
      * intros _ p. rewrite Hmap, filter_In, Hown, andb_true_iff, Z.leb_le.
        tauto.
    + split; [|split].
      * unfold by_pub_date_desc. rewrite Hmap.
        apply (order_by_desc_sorted Post.pub_date).
      * intros _ p. rewrite Hmap. apply Hown.
      * intros Hother. apply user_ne_true in Hother. congruence.
Qed.

(** Nobody of the sample store is called carol. *)
Lemma profile_listing_witness :
  ProfileListView.get Sample.store
                      (@Sample.request unit Sample.as_bob GET 1 None) "carol"
  = HttpResponseNotFound.
Proof.
  refine (proj2 (proj1 (profile_listing
                          Sample.store
                          (@Sample.request unit Sample.as_bob GET 1 None)
                          "carol" eq_refl) _)).
  intros u [<-|[<-|[]]]; discriminate.
Defined.

Lemma Forall_filter_keep {A : Type} (P : A -> Prop) (f : A -> bool)
      (l : list A) :
  Forall P l -> Forall P (filter f l).
Proof.
  rewrite !Forall_forall. intros H x Hx. apply filter_In in Hx. apply H, Hx.
Qed.

Lemma Forall_order_by_desc {A : Type} (P : A -> Prop) (key : A -> Z)
      (l : list A) :
  Forall P l -> Forall P (order_by_desc key l).
Proof.
  rewrite !Forall_forall. intros H x Hx. apply H.
  apply (Permutation_in _ (order_by_desc_perm key l)), Hx.
Qed.

Lemma Forall_annotated (st : Store) (qs : list Row) :
  Forall (fun r => comment_count r
                   = Some (List.length
                             (post_comments st (Post.pk (instance r)))))
         (annotate_comment_count st qs).
Proof.
  unfold annotate_comment_count. rewrite Forall_forall. intros r Hr.
  apply in_map_iff in Hr. destruct Hr as (x & <- & _). reflexivity.
Qed.

(** X17. Every row of the index, category and profile listings carries as
    [comment_count] the number of comments of the store written on that
    post. *)
Theorem listings_count_comments {F : Type} (st : Store) (request : Request F) :
  let counted r :=
    comment_count r
    = Some (List.length
              (filter (fun c => Comment.post c =? Post.pk (instance r))
                      (comments st))) in
  Forall counted (PostListView.get_queryset st request)
  /\ (forall category_slug queryset,
        CategoryPostsListView.get_queryset st request category_slug
        = Ok queryset ->
        Forall counted queryset)
  /\ (forall username queryset,
        ProfileListView.get_queryset st request username = Ok queryset ->
        Forall counted queryset).
Proof.
  intros counted.
  assert (Forall counted (PostListView.get_queryset st request)) as Hindex
    by apply Forall_annotated.
  split; [exact Hindex|split].
  - intros category_slug queryset.
    unfold CategoryPostsListView.get_queryset.
    destruct (get_object_or_404 _ _) as [category|e]; [|discriminate].
    simpl. intros [= <-]. apply Forall_filter_keep. exact Hindex.
  - intros username queryset.
    unfold ProfileListView.get_queryset.
    destruct (get_object_or_404 _ _) as [profile|e]; [|discriminate].
    simpl.
    assert (Forall counted
                   (order_by_desc
                      (fun r => Post.pub_date (instance r))
                      (filter (fun r => Post.author (instance r)
                                        =? User.pk profile)
                              (annotate_comment_count st (Post_objects st)))))
      as Hown
      by (apply Forall_order_by_desc, Forall_filter_keep, Forall_annotated).
    destruct (user_ne (user request) (User.pk profile)); intros [= <-].
    + apply Forall_filter_keep. exact Hown.
    + exact Hown.
Qed.

(** X18. Whatever the index or a category page lists can be opened: a post
    listed there is returned by the detail view to every viewer, at the
    time of the listing and at any later time, as long as the store does
    not change. *)
Theorem listed_posts_open
        {F G : Type} (st : Store) (request : Request F) (later : Request G)
        (p : Post.t)
        (Hunique : unique_pk Post.pk (posts st) = true)
        (Hnow : now request <= now later)
        (Hlisted : In p (map instance (PostListView.get_queryset st request))
                   \/ exists category_slug queryset,
                        CategoryPostsListView.get_queryset
                          st request category_slug = Ok queryset
                        /\ In p (map instance queryset)) :
  exists row,
    PostDetailView.get_object st later (Post.pk p) = Ok row
    /\ instance row = p
    /\ PostDetailView.get st later (Post.pk p)
       = TemplateResponse "blog/detail.html"
                          (PostDetailView.get_context_data st row).
Proof.
  assert (In p (map instance (PostListView.get_queryset st request))) as Hin.
  { destruct Hlisted as [H|(category_slug & queryset & E & H)]; [exact H|].
    unfold CategoryPostsListView.get_queryset in E.
    destruct (get_object_or_404 _ _) as [category|e]; [|discriminate].
    simpl in E. injection E as <-.
    apply in_map_iff in H. destruct H as (r & <- & Hr).
    apply filter_In in Hr. apply in_map, Hr. }
  apply (PostListView_listing st request) in Hin.
  destruct Hin as [Hin (Hpub & Hdate & Hcat)].
  assert (publicly_visible st (now later) p) as Hv
    by (split; [exact Hpub|split; [lia|exact Hcat]]).
  assert (exists row, PostDetailView.get_object st later (Post.pk p) = Ok row
                      /\ instance row = p) as (row & E & Hrow).
  { unfold PostDetailView.get_object, get_object_or_404 at 1.
    rewrite (get_post_by_pk st p Hunique Hin). simpl.
    destruct (user_ne (user later) (Post.author p)).
    - unfold PostDetailView.get_queryset.
      rewrite (get_visible_found st later p Hunique Hin Hv).
      eexists. split; reflexivity.
    - eexists. split; reflexivity. }
  exists row. split; [exact E|split; [exact Hrow|]].
  unfold PostDetailView.get. rewrite E. reflexivity.
Qed.

(** Post 5 is on the index of the sample store; bob opens it later. *)
Lemma listed_posts_open_witness :
  exists row,
    PostDetailView.get_object
      Sample.store (@Sample.request unit Sample.as_bob GET 1 None) 5 = Ok row
    /\ instance row = Sample.post5
    /\ PostDetailView.get
         Sample.store (@Sample.request unit Sample.as_bob GET 1 None) 5
       = TemplateResponse "blog/detail.html"
                          (PostDetailView.get_context_data Sample.store row).
Proof.
  refine (listed_posts_open
            Sample.store (@Sample.request unit AnonymousUser GET 1 None)
            (@Sample.request unit Sample.as_bob GET 1 None)
            Sample.post5 eq_refl _ (or_introl _)).
  - simpl. lia.
  - vm_compute. tauto.
Defined.

(** ** Pages *)

Lemma firstn_plus {A : Type} (n m : nat) (l : list A) :
  firstn (n + m) l = (firstn n l ++ firstn m (skipn n l))%list.
Proof.
  revert l. induction n as [|n IH]; intros l; [reflexivity|].
  destruct l as [|a l]; simpl.
  - rewrite firstn_nil. reflexivity.
  - rewrite IH. reflexivity.
Qed.

Lemma concat_chunks {A : Type} (p k : nat) (l : list A) :
  List.concat (map (fun n => firstn p (skipn ((n - 1) * p) l)) (seq 1 k))
  = firstn (k * p) l.
Proof.
  induction k as [|k IH]; [reflexivity|].
  rewrite seq_S, map_app, concat_app, IH. simpl.
  rewrite app_nil_r, Nat.sub_0_r.
  replace (p + k * p)%nat with (k * p + p)%nat by lia.
  symmetry. apply firstn_plus.
Qed.

Lemma num_pages_covers {A : Type} (l : list A) :
  (1 <= num_pages 10 l)%nat /\ (List.length l <= num_pages 10 l * 10)%nat.
Proof.
  unfold num_pages. cbv zeta.
  pose proof (Nat.div_mod_eq (Nat.max 1 (List.length l) + 10 - 1) 10) as Hdiv.
  pose proof (Nat.mod_upper_bound (Nat.max 1 (List.length l) + 10 - 1) 10)
    as Hmod.
  lia.
Qed.

(** X19. The pages of a listing, at 10 rows a page, cut it into consecutive
    pieces of at most 10 rows that together are the whole listing; page 1
    always exists, also for an empty listing; page 0 and every page after
    the last are NotFound. *)
Theorem pages_partition {A : Type} (l : list A) :
  let per_page := PostListView.paginate_by in
  (exists chunks,
      map (paginate_queryset per_page l) (seq 1 (num_pages per_page l))
      = map Ok chunks
      /\ List.concat chunks = l
      /\ Forall (fun chunk => (List.length chunk <= per_page)%nat) chunks)
  /\ paginate_queryset per_page l 1 = Ok (firstn per_page l)
  /\ paginate_queryset per_page l 0 = Raise Http404
  /\ (forall n, (num_pages per_page l < n)%nat ->
                paginate_queryset per_page l n = Raise Http404).
Proof.
  unfold PostListView.paginate_by. cbv zeta.
  destruct (num_pages_covers l) as [Hone Hcover].
  split; [|split; [|split]].
  - exists (map (fun n => firstn 10 (skipn ((n - 1) * 10) l))
                (seq 1 (num_pages 10 l))).
    split; [|split].
    + rewrite map_map. apply map_ext_in. intros n Hn.
      apply in_seq in Hn. unfold paginate_queryset.
      destruct (n <? 1)%nat eqn:E1; [apply Nat.ltb_lt in E1; lia|].
      destruct (num_pages 10 l <? n)%nat eqn:E2;
        [apply Nat.ltb_lt in E2; lia|].
      reflexivity.
    + rewrite concat_chunks. apply firstn_all2. exact Hcover.
    + rewrite Forall_forall. intros chunk Hc.
      apply in_map_iff in Hc. destruct Hc as (n & <- & _).
      rewrite length_firstn. lia.
  - unfold paginate_queryset.
    destruct (num_pages 10 l <? 1)%nat eqn:E;
      [apply Nat.ltb_lt in E; lia|].
    reflexivity.
  - reflexivity.
  - intros n Hn. unfold paginate_queryset.
    destruct (n <? 1)%nat; [reflexivity|].
    apply Nat.ltb_lt in Hn. rewrite Hn. reflexivity.
Qed.

(** ** The routes *)

Lemma uint_of_string_no_slash (s : string) (d : Decimal.uint) :
  NilEmpty.uint_of_string s = Some d ->
  forall c, In c (list_ascii_of_string s) -> c <> "/"%char.
Proof.
  revert d. induction s as [|a s IH]; simpl; intros d H c Hc; [contradiction|].
  destruct (NilEmpty.uint_of_string s) as [d'|] eqn:E;
    [|destruct a as [[] [] [] [] [] [] [] []]; discriminate].
  destruct Hc as [<-|Hc]; [|exact (IH d' eq_refl c Hc)].
  intros ->. discriminate.
Qed.

Lemma to_url_digits (z : Z) :
  0 <= z ->
  NilEmpty.uint_of_string (Urls.to_url z) = Some (N.to_uint (Z.to_N z))
  /\ Urls.to_url z <> EmptyString.
Proof.
  intros Hz. unfold Urls.to_url.
  destruct (z <? 0) eqn:E; [apply Z.ltb_lt in E; lia|].
  split; [apply NilEmpty.usu|].
  intros Hempty.
  pose proof (NilEmpty.usu (N.to_uint (Z.to_N z))) as Husu.
  rewrite Hempty in Husu. simpl in Husu. injection Husu as Hnil.
  pose proof (Unsigned.of_to (Z.to_N z)) as Hof.
  rewrite <- Hnil in Hof. simpl in Hof.
  rewrite <- Hof in Hnil. discriminate.
Qed.

(** The int converter reads back what [to_url] writes. *)
Lemma to_python_to_url (z : Z) :
  0 <= z -> Urls.to_python Urls.int (Urls.to_url z) = Some (Urls.IntValue z).
Proof.
  intros Hz. destruct (to_url_digits z Hz) as [Hd Hne].
  unfold Urls.to_python.
  destruct (String.eqb (Urls.to_url z) EmptyString) eqn:E;
    [apply String.eqb_eq in E; contradiction|].
  rewrite Hd. simpl. rewrite Unsigned.of_to, Z2N.id by exact Hz.
  reflexivity.
Qed.

Lemma to_python_int_inv (s : string) (v : Urls.Value) :
  Urls.to_python Urls.int s = Some v -> exists z, v = Urls.IntValue z /\ 0 <= z.
Proof.
  unfold Urls.to_python.
  destruct (String.eqb s EmptyString); [discriminate|].
  destruct (NilEmpty.uint_of_string s) as [d|]; [|discriminate].
  simpl. intros [= <-]. eexists. split; [reflexivity|]. lia.
Qed.

Lemma to_python_str_inv (s : string) (v : Urls.Value) :
  Urls.to_python Urls.str s = Some v ->
  v = Urls.StrValue s /\ s <> EmptyString.
Proof.
  unfold Urls.to_python.
  destruct (String.eqb s EmptyString) eqn:E; [discriminate|].
  apply String.eqb_neq in E. intros [= <-]. auto.
Qed.

Lemma to_python_slug_inv (s : string) (v : Urls.Value) :
  Urls.to_python Urls.slug s = Some v ->
  v = Urls.StrValue s /\ s <> EmptyString
  /\ forallb Urls.slug_char (list_ascii_of_string s) = true.
Proof.
  unfold Urls.to_python.
  destruct (String.eqb s EmptyString) eqn:E; [discriminate|].
  apply String.eqb_neq in E.
  destruct (forallb Urls.slug_char (list_ascii_of_string s));
    [|discriminate].
  intros [= <-]. auto.
Qed.

(** A path put together from segments without a slash splits back into
    them. *)
Lemma split_segment (s rest : string) :
  (forall c, In c (list_ascii_of_string s) -> c <> "/"%char) ->
  Urls.split (s ++ String "/" rest) = s :: Urls.split rest.
Proof.
  induction s as [|a s IH]; simpl; intros H.
  - reflexivity.
  - destruct (Ascii.eqb a "/") eqn:E.
    + apply Ascii.eqb_eq in E. exfalso. exact (H a (or_introl eq_refl) E).
    + rewrite IH; [reflexivity|]. intros c Hc. apply H. right. exact Hc.
Qed.

Lemma segments_join (segs : list string) :
  Forall (fun s => forall c, In c (list_ascii_of_string s) -> c <> "/"%char)
         segs ->
  Urls.segments (fold_right (fun s rest => s ++ String "/" rest)
                            EmptyString segs)
  = Some segs.
Proof.
  intros H.
  assert (Urls.split (fold_right (fun s rest => s ++ String "/" rest)
                                 EmptyString segs)
          = (segs ++ [EmptyString])%list) as E.
  { induction H as [|s segs Hs _ IH]; simpl; [reflexivity|].
    rewrite (split_segment s _ Hs), IH. reflexivity. }
  unfold Urls.segments. rewrite E, rev_app_distr. simpl.
  rewrite rev_involutive. reflexivity.
Qed.

Lemma to_url_not_create (z : Z) :
  0 <= z -> String.eqb "create" (Urls.to_url z) = false.
Proof.
  intros Hz. apply String.eqb_neq. intros H.
  destruct (to_url_digits z Hz) as [Hd _]. rewrite <- H in Hd.
  discriminate.
Qed.

Lemma to_url_no_slash (z : Z) :
  0 <= z ->
  forall c, In c (list_ascii_of_string (Urls.to_url z)) -> c <> "/"%char.
Proof.
  intros Hz. destruct (to_url_digits z Hz) as [Hd _].
  exact (uint_of_string_no_slash _ _ Hd).
Qed.

Lemma literal_no_slash (s : string) :
  forallb (fun c => negb (Ascii.eqb c "/")) (list_ascii_of_string s) = true ->
  forall c, In c (list_ascii_of_string s) -> c <> "/"%char.
Proof.
  intros H c Hc. rewrite forallb_forall in H. specialize (H c Hc).
  apply negb_true_iff, Ascii.eqb_neq in H. exact H.
Qed.

(** Unfolds the table of routes and the matcher, not the comparisons. *)
Ltac route_match :=
  cbv [Urls.urlpatterns Urls.include Urls.posts_url Urls.profile_url
       map app fst snd Urls.first_match Urls.match_route].

(** X20. The URL of a post page resolves to its view with the same key:
    for non-negative keys, the paths [posts/<pk>/], [posts/<pk>/edit/],
    [posts/<pk>/delete/], [posts/<pk>/comment/],
    [posts/<pk>/edit_comment/<comment_pk>/] and
    [posts/<pk>/delete_comment/<comment_pk>/], written with [str(pk)], are
    routed to the views of those names with the keys read back. *)
Theorem post_routes_resolve (pk comment_pk : Z)
        (Hpk : 0 <= pk) (Hcomment_pk : 0 <= comment_pk) :
  Urls.resolve ("posts/" ++ Urls.to_url pk ++ "/")
  = Some (Urls.blog_post_detail, [Urls.IntValue pk])
  /\ Urls.resolve ("posts/" ++ Urls.to_url pk ++ "/edit/")
     = Some (Urls.blog_edit_post, [Urls.IntValue pk])
  /\ Urls.resolve ("posts/" ++ Urls.to_url pk ++ "/delete/")
     = Some (Urls.blog_delete_post, [Urls.IntValue pk])
  /\ Urls.resolve ("posts/" ++ Urls.to_url pk ++ "/comment/")
     = Some (Urls.blog_add_comment, [Urls.IntValue pk])
  /\ Urls.resolve ("posts/" ++ Urls.to_url pk ++ "/edit_comment/"
                            ++ Urls.to_url comment_pk ++ "/")
     = Some (Urls.blog_edit_comment,
             [Urls.IntValue pk; Urls.IntValue comment_pk])
  /\ Urls.resolve ("posts/" ++ Urls.to_url pk ++ "/delete_comment/"
                            ++ Urls.to_url comment_pk ++ "/")
     = Some (Urls.blog_delete_comment,
             [Urls.IntValue pk; Urls.IntValue comment_pk]).
Proof.
  pose proof (to_url_no_slash pk Hpk) as Hs1.
  pose proof (to_url_no_slash comment_pk Hcomment_pk) as Hs2.
  pose proof (to_url_not_create pk Hpk) as Hcreate.
  pose proof (to_python_to_url pk Hpk) as Hint1.
  pose proof (to_python_to_url comment_pk Hcomment_pk) as Hint2.
  assert (forall segs name kwargs,
             Forall (fun s => forall c, In c (list_ascii_of_string s) ->
                                        c <> "/"%char) segs ->
             Urls.first_match Urls.urlpatterns segs = Some (name, kwargs) ->
             Urls.resolve (fold_right (fun s rest => s ++ String "/" rest)
                                      EmptyString segs)
             = Some (name, kwargs)) as Hresolve.
  { intros segs name kwargs Hsegs Hmatch. unfold Urls.resolve.
    rewrite (segments_join segs Hsegs). exact Hmatch. }
  repeat split.
  - apply (Hresolve ["posts"; Urls.to_url pk]).
    + repeat constructor; [apply literal_no_slash; reflexivity|exact Hs1].
    + route_match; rewrite Hcreate, Hint1; reflexivity.
  - apply (Hresolve ["posts"; Urls.to_url pk; "edit"]).
    + repeat constructor;
        [apply literal_no_slash; reflexivity|exact Hs1
        |apply literal_no_slash; reflexivity].
    + route_match; rewrite Hcreate, Hint1; reflexivity.
  - apply (Hresolve ["posts"; Urls.to_url pk; "delete"]).
    + repeat constructor;
        [apply literal_no_slash; reflexivity|exact Hs1
        |apply literal_no_slash; reflexivity].
    + route_match; rewrite Hcreate, Hint1; reflexivity.
  - apply (Hresolve ["posts"; Urls.to_url pk; "comment"]).
    + repeat constructor;
        [apply literal_no_slash; reflexivity|exact Hs1
        |apply literal_no_slash; reflexivity].
    + route_match; rewrite Hcreate, Hint1; reflexivity.
  - apply (Hresolve ["posts"; Urls.to_url pk; "edit_comment";
                     Urls.to_url comment_pk]).
    + repeat constructor;
        [apply literal_no_slash; reflexivity|exact Hs1
        |apply literal_no_slash; reflexivity|exact Hs2].
    + route_match; rewrite Hcreate, Hint1, ?Hint2; reflexivity.
  - apply (Hresolve ["posts"; Urls.to_url pk; "delete_comment";
                     Urls.to_url comment_pk]).
    + repeat constructor;
        [apply literal_no_slash; reflexivity|exact Hs1
        |apply literal_no_slash; reflexivity|exact Hs2].
    + route_match; rewrite Hcreate, Hint1, ?Hint2; reflexivity.
Qed.

(** The edit page of post 120. *)
Lemma post_routes_resolve_witness :
  Urls.resolve "posts/120/edit/" = Some (Urls.blog_edit_post, [Urls.IntValue 120]).
Proof.
  assert (0 <= 120) as H120 by lia.
  assert (0 <= 0) as H0 by lia.
  exact (proj1 (proj2 (post_routes_resolve 120 0 H120 H0))).
Defined.

(** X21. What a view is handed by the resolver: the post views get one
    non-negative [pk], the comment edit and delete views a non-negative
    [pk] and [comment_pk], the category view a non-empty slug, the profile
    view a non-empty user name that is not ["edit"], the other views
    nothing. *)
Theorem resolve_kwargs (path : string) (name : Urls.ViewName)
        (kwargs : list Urls.Value)
        (Hresolve : Urls.resolve path = Some (name, kwargs)) :
  match name with
  | Urls.blog_index | Urls.blog_create_post | Urls.blog_edit_profile => kwargs = []
  | Urls.blog_post_detail | Urls.blog_edit_post | Urls.blog_delete_post | Urls.blog_add_comment =>
      exists pk, kwargs = [Urls.IntValue pk] /\ 0 <= pk
  | Urls.blog_edit_comment | Urls.blog_delete_comment =>
      exists pk comment_pk,
        kwargs = [Urls.IntValue pk; Urls.IntValue comment_pk]
        /\ 0 <= pk /\ 0 <= comment_pk
  | Urls.blog_category_posts =>
      exists category_slug,
        kwargs = [Urls.StrValue category_slug]
        /\ category_slug <> EmptyString
        /\ forallb Urls.slug_char (list_ascii_of_string category_slug) = true
  | Urls.blog_profile =>
      exists username,
        kwargs = [Urls.StrValue username]
        /\ username <> EmptyString /\ username <> "edit"
  end.
Proof.
  unfold Urls.resolve in Hresolve.
  destruct (Urls.segments path) as [segs|]; [|discriminate].
  revert Hresolve. route_match.
  destruct segs as [|s1 [|s2 [|s3 [|s4 [|s5 segs]]]]];
    repeat match goal with
      | |- context [String.eqb ?a ?b] =>
          match b with
          | s1 => idtac | s2 => idtac | s3 => idtac | s4 => idtac
          end;
          destruct (String.eqb a b) eqn:?
      | |- context [Urls.to_python ?c ?s] =>
          let E := fresh "E" in
          destruct (Urls.to_python c s) as [?v|] eqn:E;
          [first [ apply to_python_int_inv in E;
                   destruct E as (? & -> & ?)
                 | apply to_python_slug_inv in E;
                   destruct E as (-> & ? & ?)
                 | apply to_python_str_inv in E;
                   destruct E as (-> & ?) ]|]
      end;
    cbv [option_map]; intros [= <- <-];
    try reflexivity;
    try (eexists; split; [reflexivity|assumption]);
    try (eexists; eexists; split; [reflexivity|split; assumption]);
    try (eexists; split; [reflexivity|split; assumption]).
  all: eexists; split; [reflexivity|]; split; [assumption|]; intros ->;
    match goal with
    | H : String.eqb "edit" "edit" = false |- _ => discriminate H
    end.
Qed.

(** The comment-edit route. *)
Lemma resolve_kwargs_witness :
  exists pk comment_pk,
    [Urls.IntValue 5; Urls.IntValue 7]
    = [Urls.IntValue pk; Urls.IntValue comment_pk]
    /\ 0 <= pk /\ 0 <= comment_pk.
Proof.
  exact (resolve_kwargs "posts/5/edit_comment/7/" Urls.blog_edit_comment
                        [Urls.IntValue 5; Urls.IntValue 7] eq_refl).
Defined.

Lemma slug_no_slash (s : string) :
  forallb Urls.slug_char (list_ascii_of_string s) = true ->
  forall c, In c (list_ascii_of_string s) -> c <> "/"%char.
Proof.
  intros H c Hc. rewrite forallb_forall in H. specialize (H c Hc).
  intros ->. discriminate H.
Qed.

(** X22. The profile and category URLs: [profile/<username>/], for a
    non-empty user name without a slash, is routed to the profile view
    with that name, except for the name ["edit"], whose URL is taken by the
    profile form; [category/<slug>/], for a non-empty slug of letters,
    digits, hyphens and underscores, is routed to the category view with
    that slug. *)
Theorem profile_and_category_routes (username category_slug : string)
        (Hname : username <> EmptyString)
        (Hname_slash : forall c, In c (list_ascii_of_string username) ->
                                 c <> "/"%char)
        (Hslug : category_slug <> EmptyString)
        (Hslug_chars : forallb Urls.slug_char
                               (list_ascii_of_string category_slug) = true) :
  Urls.resolve ("profile/" ++ username ++ "/")
  = (if String.eqb username "edit"
     then Some (Urls.blog_edit_profile, [])
     else Some (Urls.blog_profile, [Urls.StrValue username]))
  /\ Urls.resolve ("category/" ++ category_slug ++ "/")
     = Some (Urls.blog_category_posts, [Urls.StrValue category_slug]).
Proof.
  split.
  - change ("profile/" ++ username ++ "/")
      with (fold_right (fun s rest => s ++ String "/" rest) EmptyString
                       ["profile"; username]).
    unfold Urls.resolve. rewrite segments_join.
    + route_match. rewrite (String.eqb_sym username "edit").
      change (String.eqb "posts" "profile") with false.
      change (String.eqb "category" "profile") with false.
      change (String.eqb "profile" "profile") with true. cbv iota.
      destruct (String.eqb "edit" username); [reflexivity|].
      unfold Urls.to_python.
      destruct (String.eqb username EmptyString) eqn:E;
        [apply String.eqb_eq in E; contradiction|].
      reflexivity.
    + repeat constructor; [apply literal_no_slash; reflexivity|exact Hname_slash].
  - change ("category/" ++ category_slug ++ "/")
      with (fold_right (fun s rest => s ++ String "/" rest) EmptyString
                       ["category"; category_slug]).
    unfold Urls.resolve. rewrite segments_join.
    + route_match.
      change (String.eqb "posts" "category") with false.
      change (String.eqb "category" "category") with true. cbv iota.
      unfold Urls.to_python.
      destruct (String.eqb category_slug EmptyString) eqn:E;
        [apply String.eqb_eq in E; contradiction|].
      rewrite Hslug_chars. reflexivity.
    + repeat constructor;
        [apply literal_no_slash; reflexivity
        |apply slug_no_slash; exact Hslug_chars].
Qed.

(** The profile URL of a user called edit opens the profile form. *)
Lemma profile_and_category_routes_witness :
  Urls.resolve "profile/edit/" = Some (Urls.blog_edit_profile, [])
  /\ Urls.resolve "category/travel/"
     = Some (Urls.blog_category_posts, [Urls.StrValue "travel"]).
Proof.
  refine (profile_and_category_routes "edit" "travel" _ _ _ eq_refl).
  - discriminate.
  - apply literal_no_slash. reflexivity.
  - discriminate.
Defined.
